(** * Blank-page removal for PDF documents: a model of [main.py]

    The development follows the Python module function by function:
    [is_page_blank] (the classifier), [remove_blank_pages] (the filter)
    and [run_app] (the Streamlit front end).  The PDF library is not part
    of the program; the part of its behaviour the program relies on
    (Python values, their truth value, attribute lookup, exceptions) is
    modelled first, and parsing and serialization are parameters. *)

From Stdlib Require Import String Ascii List ZArith NArith Lia Bool.
From Stdlib Require Import Strings.Byte.
Import ListNotations.

Set Implicit Arguments.
Set Warnings "-register-all".

Local Open Scope string_scope.
Local Open Scope list_scope.

(** ** Exceptions and fallible computations *)

(** Exceptions the program can meet.  Every one of them is a subclass of
    Python's [Exception], which is what both [except Exception] clauses of
    the program catch. *)
Inductive exn : Type :=
| AttributeError              (* attribute lookup on an object without it *)
| PdfReadError                (* the library cannot parse the document *)
| PdfStreamError              (* the library cannot read a stream *)
| EmptyFileError              (* the library is handed an empty stream *)
| FileNotDecryptedError       (* the document is password protected *)
| OtherError (name : string). (* any other Exception subclass *)

(** A Python expression either evaluates to a value or raises. *)
Inductive result (A : Type) : Type :=
| Return (a : A)
| Raise (e : exn).

Arguments Return {A} a.
Arguments Raise {A} e.

Definition rbind {A B : Type} (r : result A) (k : A -> result B) : result B :=
  match r with
  | Return a => k a
  | Raise e => Raise e
  end.

(** [try: body  except Exception: handler]. *)
Definition try_except {A : Type} (body : result A) (handler : exn -> result A)
  : result A :=
  match body with
  | Return a => Return a
  | Raise e => handler e
  end.

Declare Scope result_scope.
Delimit Scope result_scope with result.
Notation "x <- e ;; k" := (rbind e (fun x => k))
  (at level 61, e at next level, right associativity) : result_scope.

(** ** Python strings *)

(** A Python [str] is a sequence of Unicode code points. *)
Definition text : Type := list N.

(** The [str] a string literal of the program denotes. *)
Definition codepoints (s : string) : text :=
  map N_of_ascii (list_ascii_of_string s).

(** [str.isspace] on one code point, which is what [str.strip] removes:
    U+0009-000D, U+001C-001F, U+0020, U+0085, U+00A0, U+1680,
    U+2000-200A, U+2028, U+2029, U+202F, U+205F and U+3000. *)
Definition isspace (c : N) : bool :=
  (((9 <=? c) && (c <=? 13)) || ((28 <=? c) && (c <=? 32))
   || (c =? 133) || (c =? 160) || (c =? 5760)
   || ((8192 <=? c) && (c <=? 8202))
   || (c =? 8232) || (c =? 8233) || (c =? 8239) || (c =? 8287)
   || (c =? 12288))%N.

(** Truth value of a [str]: the empty string is false. *)
Definition str_truthy (s : text) : bool :=
  match s with
  | [] => false
  | _ :: _ => true
  end.

(** [s.lstrip()]. *)
Fixpoint lstrip (s : text) : text :=
  match s with
  | [] => []
  | c :: rest => if isspace c then lstrip rest else s
  end.

(** [s.rstrip()]. *)
Fixpoint rstrip (s : text) : text :=
  match s with
  | [] => []
  | c :: rest =>
      let rest' := rstrip rest in
      if isspace c && negb (str_truthy rest') then []
      else c :: rest'
  end.

(** [s.strip()]: leading and trailing white space removed. *)
Definition strip (s : text) : text := rstrip (lstrip s).

(** Every code point of the string is white space (true of the empty
    string). *)
Definition all_whitespace (s : text) : bool := forallb isspace s.

(** [x or ""] for [x] a [str] or [None]. *)
Definition or_empty (x : option text) : text :=
  match x with
  | Some s => if str_truthy s then s else []
  | None => []
  end.

(** [s1 == s2] on two [str]. *)
Fixpoint text_eqb (s1 s2 : text) : bool :=
  match s1, s2 with
  | [], [] => true
  | c1 :: r1, c2 :: r2 => (c1 =? c2)%N && text_eqb r1 r2
  | _, _ => false
  end.

(** ** PDF objects as the library hands them to the program *)

(** The values found in a page dictionary.  [direct] are the PDF objects
    proper; an [obj] is what a lookup returns: [None], an object stored in
    place, or an indirect reference.  A reference carries what resolving it
    yields: [Some o], or [None] when the reference dangles; the object a
    reference points to is not itself a reference.  A dictionary keeps its
    entries in insertion order, which is the order [items()] iterates in.
    Names and dictionary keys are compared with ASCII literals only and are
    kept as [string]; of a real number only its being zero matters. *)
Inductive direct : Type :=
| NullObject                                     (* null *)
| BooleanObject (value : bool)                   (* true, false *)
| NumberObject (n : Z)                           (* an int *)
| FloatObject (nonzero : bool)                   (* a float *)
| NameObject (s : string)                        (* a str, e.g. /Image *)
| TextStringObject (s : text)                    (* a str *)
| ByteStringObject (b : list byte)               (* a bytes *)
| ArrayObject (items : list obj)                 (* a list *)
| DictionaryObject (entries : list (string * obj))  (* a dict; also streams *)
with obj : Type :=
| PyNone                                         (* None *)
| Direct (o : direct)                            (* an object in place *)
| IndirectObject (target : option direct).       (* n g R *)

Coercion Direct : direct >-> obj.

(** Truth value of a PDF object, as [if o:] tests it.  Numbers, strings,
    lists and dicts follow the built-in types they derive from; the null
    and boolean objects define neither [__bool__] nor [__len__] and are
    true. *)
Definition direct_truthy (o : direct) : bool :=
  match o with
  | NullObject => true
  | BooleanObject _ => true
  | NumberObject n => negb (n =? 0)%Z
  | FloatObject nonzero => nonzero
  | NameObject s => match s with EmptyString => false | String _ _ => true end
  | TextStringObject s => str_truthy s
  | ByteStringObject b => match b with [] => false | _ :: _ => true end
  | ArrayObject items => match items with [] => false | _ :: _ => true end
  | DictionaryObject entries =>
      match entries with [] => false | _ :: _ => true end
  end.

(** Truth value of what a lookup returns.  A reference defines neither
    [__bool__] nor [__len__] either, so it is true whatever it points to. *)
Definition truthy (o : obj) : bool :=
  match o with
  | PyNone => false
  | Direct d => direct_truthy d
  | IndirectObject _ => true
  end.

(** [dict.get(key)]: the stored value, unresolved, or [None]. *)
Fixpoint dict_get (entries : list (string * obj)) (key : string) : obj :=
  match entries with
  | [] => PyNone
  | (k, v) :: rest => if String.eqb k key then v else dict_get rest key
  end.

(** The object in which an attribute that [o]'s own class lacks is looked
    up: [o] itself when it is stored in place, the object pointed to for a
    reference. *)
Definition attribute_owner (o : obj) : option direct :=
  match o with
  | PyNone => None
  | Direct d => Some d
  | IndirectObject target => target
  end.

(** The dict whose [get] method a lookup of [get] on [o] finds; only
    dictionaries have the method. *)
Definition as_dict (o : obj) : result (list (string * obj)) :=
  match attribute_owner o with
  | Some (DictionaryObject d) => Return d
  | _ => Raise AttributeError
  end.

(** [o.get(key)]. *)
Definition obj_get (o : obj) (key : string) : result obj :=
  (d <- as_dict o ;; Return (dict_get d key))%result.

(** The first component of an item: a dictionary key or a list index. *)
Inductive key : Type :=
| Name (s : string)
| Index (i : nat).

(** [enumerate(items)], counting from [start]. *)
Fixpoint enumerate_from (start : nat) (items : list obj) : list (key * obj) :=
  match items with
  | [] => []
  | x :: rest => (Index start, x) :: enumerate_from (S start) rest
  end.

(** [o.items()]: the entries of a dictionary; an array has the method too
    and enumerates its elements; nothing else has it. *)
Definition obj_items (o : obj) : result (list (key * obj)) :=
  match attribute_owner o with
  | Some (DictionaryObject d) =>
      Return (map (fun kv => (Name (fst kv), snd kv)) d)
  | Some (ArrayObject items) => Return (enumerate_from 0 items)
  | _ => Raise AttributeError
  end.

(** [o.get_object()]: every PDF object has the method and returns itself,
    except a reference, which returns what it resolves to ([None] when it
    dangles). *)
Definition get_object (o : obj) : result obj :=
  match o with
  | PyNone => Raise AttributeError
  | Direct d => Return (Direct d)
  | IndirectObject (Some d) => Return (Direct d)
  | IndirectObject None => Return PyNone
  end.

(** [o == s] for a string literal [s]: only a [str] can be equal to it. *)
Definition eq_str (o : obj) (s : string) : bool :=
  match o with
  | Direct (NameObject n) => String.eqb n s
  | Direct (TextStringObject n) => text_eqb n (codepoints s)
  | _ => false
  end.

(** ** Pages *)

(** The classifier takes any object with the two methods it calls.  A page
    is modelled by what these calls do: [extract_text ()] returns a [str]
    (or [None]) or raises, and [get key] returns an object or raises. *)
Record PageObject : Type := {
  extract_text : result (option text);
  get : string -> result obj
}.

(** A page of the PDF library is a dictionary: its [get] is [dict.get] and
    never raises. *)
Definition page_of_dict (text : result (option text))
    (entries : list (string * obj)) : PageObject :=
  {| extract_text := text;
     get := fun key => Return (dict_get entries key) |}.

(** ** The classifier: [is_page_blank] *)

(** The [for] loop of lines 30-32 over the items of the XObject mapping.
    [Some v] means that the loop executed [return v]; [None] that it ran to
    its end. *)
Fixpoint xobject_loop (items : list (key * obj))
  : result (option bool) :=
  match items with
  | [] => Return None
  | (_, xobject) :: rest =>
      (subtype <- obj_get xobject "/Subtype" ;;
       if eq_str subtype "/Image" then Return (Some false)
       else xobject_loop rest)%result
  end.

(** The body of the [try] statement (lines 30-32): resolve the mapping,
    take its items, run the loop. *)
Definition inspect_xobjects (xobjects : obj) : result (option bool) :=
  (o <- get_object xobjects ;;
   items <- obj_items o ;;
   xobject_loop items)%result.

(** [is_page_blank(page)], lines 10-37. *)
Definition is_page_blank (page : PageObject) : result bool :=
  (t <- extract_text page ;;
   let text := strip (or_empty t) in
   if str_truthy text then Return false
   else
     annots <- get page "/Annots" ;;
     if truthy annots then Return false
     else
       resources <- get page "/Resources" ;;
       returned <-
         (if truthy resources then
            xobjects <- obj_get resources "/XObject" ;;
            if truthy xobjects then
              try_except (inspect_xobjects xobjects)
                         (fun _ => Return None)
            else Return None
          else Return None) ;;
       match returned with
       | Some v => Return v
       | None => Return true
       end)%result.

(** What remains of [is_page_blank] once the Resources entry is read
    (lines 26-37). *)
Definition after_resources (resources : obj) : result bool :=
  (returned <-
     (if truthy resources then
        xobjects <- obj_get resources "/XObject" ;;
        if truthy xobjects then
          try_except (inspect_xobjects xobjects) (fun _ => Return None)
        else Return None
      else Return None) ;;
   match returned with
   | Some v => Return v
   | None => Return true
   end)%result.

(** ** The page structure in the words of the specification *)

(** The XObject mapping of a resource mapping, when it has one: the items
    that resolving the /XObject entry yields. *)
Definition xobject_mapping (resources : obj)
  : option (list (key * obj)) :=
  match as_dict resources with
  | Return r =>
      match (o <- get_object (dict_get r "/XObject") ;; obj_items o)%result
      with
      | Return xs => Some xs
      | Raise _ => None
      end
  | Raise _ => None
  end.

(** An XObject entry whose subtype equals Image: the entry is a dictionary,
    in place or through a reference, and the value stored under /Subtype is
    the name /Image. *)
Definition is_image (xobject : obj) : bool :=
  match as_dict xobject with
  | Return d => eq_str (dict_get d "/Subtype") "/Image"
  | Raise _ => false
  end.

(** An XObject entry whose subtype can be read without an error. *)
Definition inspectable (xobject : obj) : bool :=
  match as_dict xobject with
  | Return _ => true
  | Raise _ => false
  end.

(** The resource mapping contains an XObject mapping with at least one
    entry whose subtype equals Image. *)
Definition has_image_xobject (resources : obj) : bool :=
  match xobject_mapping resources with
  | Some xs => existsb (fun kv => is_image (snd kv)) xs
  | None => false
  end.

(** Some entry is an image and every entry before it can be inspected. *)
Definition image_reachable (xs : list (key * obj)) : Prop :=
  exists pre k x post,
    xs = pre ++ (k, x) :: post /\
    is_image x = true /\
    forallb (fun kv => inspectable (snd kv)) pre = true.

(** The Resources entry is absent (or false for another reason, such as
    an empty dictionary), or it is a dictionary, in place or through a
    reference: line 27 does not raise. *)
Definition resources_ok (resources : obj) : Prop :=
  truthy resources = false \/ exists r, as_dict resources = Return r.

(** The object an entry stands for: itself, or what the reference points
    to. *)
Definition resolved (o : obj) : option direct := attribute_owner o.

(** The page declares one or more annotations: its /Annots entry is a
    non-empty array, in place or through a reference. *)
Definition declares_annotations (annots : obj) : bool :=
  match resolved annots with
  | Some (ArrayObject (_ :: _)) => true
  | _ => false
  end.

(** The /Annots entry is present and is an empty collection, in place or
    through a reference. *)
Definition is_empty_collection (annots : obj) : bool :=
  match resolved annots with
  | Some (ArrayObject []) => true
  | Some (DictionaryObject []) => true
  | _ => false
  end.

(** The /Annots entry is an empty collection stored in the page itself. *)
Definition empty_collection_in_place (annots : obj) : Prop :=
  annots = ArrayObject [] \/ annots = DictionaryObject [].

(** The classifier meets the error [e] at one of its steps outside the
    [try] block: extracting the text, looking up /Annots, looking up
    /Resources, or calling [get] on the resources (lines 16, 21, 25, 27). *)
Inductive raises_outside_try (page : PageObject) (e : exn) : Prop :=
| raises_in_extract_text :
    extract_text page = Raise e -> raises_outside_try page e
| raises_in_annots_lookup (t : option text) :
    extract_text page = Return t -> strip (or_empty t) = [] ->
    get page "/Annots" = Raise e -> raises_outside_try page e
| raises_in_resources_lookup (t : option text) (a : obj) :
    extract_text page = Return t -> strip (or_empty t) = [] ->
    get page "/Annots" = Return a -> truthy a = false ->
    get page "/Resources" = Raise e -> raises_outside_try page e
| raises_in_xobject_lookup (t : option text) (a r : obj) :
    extract_text page = Return t -> strip (or_empty t) = [] ->
    get page "/Annots" = Return a -> truthy a = false ->
    get page "/Resources" = Return r -> truthy r = true ->
    obj_get r "/XObject" = Raise e -> raises_outside_try page e.

(** The classifier returns a verdict for the page. *)
Definition classified (page : PageObject) : Prop :=
  exists v, is_page_blank page = Return v.

(** The page is classified blank. *)
Definition blank_verdict (page : PageObject) : bool :=
  match is_page_blank page with
  | Return true => true
  | _ => false
  end.

(** The pages not classified blank, in their original order. *)
Definition nonblank_pages (ps : list PageObject) : list PageObject :=
  filter (fun p => negb (blank_verdict p)) ps.

(** The number of pages classified blank. *)
Definition count_blank (ps : list PageObject) : nat :=
  length (filter blank_verdict ps).

(** [l1] is [l2] with some elements left out: nothing added, duplicated or
    moved. *)
Inductive subsequence {A : Type} : list A -> list A -> Prop :=
| sub_nil : subsequence [] []
| sub_keep (x : A) (l1 l2 : list A) :
    subsequence l1 l2 -> subsequence (x :: l1) (x :: l2)
| sub_skip (x : A) (l1 l2 : list A) :
    subsequence l1 l2 -> subsequence l1 (x :: l2).

(** ** Effects: library calls and widgets *)

Definition bytes : Type := list byte.

(** [PdfReader(...)]: the parsed document with its pages in order. *)
Record Reader : Type := { pages : list PageObject }.

(** [PdfWriter()]: the output document under construction. *)
Record Writer : Type := { writer_pages : list PageObject }.

Definition PdfWriter : Writer := {| writer_pages := [] |}.

(** [writer.add_page(page)] appends the page. *)
Definition add_page (writer : Writer) (page : PageObject) : Writer :=
  {| writer_pages := writer_pages writer ++ [page] |}.

(** The three [st.metric] boxes of the summary. *)
Inductive metric : Type := TotalPages | Removed | Kept.

(** What a run does to the outside world, in order: calls into the PDF
    library and the widgets drawn. *)
Inductive event : Type :=
| ev_parse (data : bytes)                  (* PdfReader(BytesIO(data)) *)
| ev_write (doc : list PageObject)         (* writer.write(output) *)
| st_file_info (name : string) (size : nat)
| st_warning_empty_file                    (* st.warning, line 117 *)
| st_error (exc : exn)                     (* st.error, st.exception *)
| st_success
| st_metric (label : metric) (value : Z)
| st_download_button (data : bytes) (file_name : string).

(** A computation that may raise and that appends to the event log. *)
Definition M (A : Type) : Type := list event -> result A * list event.

Definition mret {A : Type} (a : A) : M A := fun log => (Return a, log).

Definition mbind {A B : Type} (m : M A) (k : A -> M B) : M B :=
  fun log =>
    match m log with
    | (Return a, log') => k a log'
    | (Raise e, log') => (Raise e, log')
    end.

(** A computation without events. *)
Definition lift {A : Type} (r : result A) : M A := fun log => (r, log).

Definition emit (ev : event) : M unit := fun log => (Return tt, log ++ [ev]).

(** [try: m  except Exception as exc: ...]: the outcome of [m] as a value. *)
Definition attempt {A : Type} (m : M A) : M (result A) :=
  fun log => let (r, log') := m log in (Return r, log').

Declare Scope M_scope.
Delimit Scope M_scope with M.
Notation "x <- e ;; k" := (mbind e (fun x => k))
  (at level 61, e at next level, right associativity) : M_scope.
Notation "e ;;; k" := (mbind e (fun _ => k))
  (at level 61, right associativity) : M_scope.

(** The uploaded file: its name and content. *)
Record UploadedFile : Type := {
  name : string;
  getvalue : bytes
}.

(** ** The filter [remove_blank_pages] and the front end [run_app] *)

(** The [for] loop of lines 51-55: [writer] and [removed_pages] are the
    loop's two variables. *)
Fixpoint page_loop (ps : list PageObject) (writer : Writer)
    (removed_pages : Z) : result (Writer * Z) :=
  match ps with
  | [] => Return (writer, removed_pages)
  | page :: rest =>
      (blank <- is_page_blank page ;;
       if blank then page_loop rest writer (removed_pages + 1)%Z
       else page_loop rest (add_page writer page) removed_pages)%result
  end.

Section Library.

(** Parsing and serialization belong to the PDF library. *)
Variable PdfReader : bytes -> result Reader.
Variable write : Writer -> result bytes.

Definition call_PdfReader (data : bytes) : M Reader :=
  (emit (ev_parse data) ;;; lift (PdfReader data))%M.

Definition call_write (writer : Writer) : M bytes :=
  (emit (ev_write (writer_pages writer)) ;;; lift (write writer))%M.

(** [remove_blank_pages(pdf_bytes)], lines 40-60: the new document's
    bytes, the number of pages and the number of pages removed. *)
Definition remove_blank_pages (pdf_bytes : bytes) : M (bytes * Z * Z) :=
  (reader <- call_PdfReader pdf_bytes ;;
   let writer := PdfWriter in
   let total_pages := Z.of_nat (length (pages reader)) in
   let removed_pages := 0%Z in
   st <- lift (page_loop (pages reader) writer removed_pages) ;;
   let (writer, removed_pages) := st : Writer * Z in
   output <- call_write writer ;;
   mret (output, total_pages, removed_pages))%M.

(** [run_app()], lines 106-141, for one script run: [uploaded] is what
    the file uploader returns and [run_clicked] what the button returns.
    The widgets that show fixed text are left out. *)
Definition run_app (uploaded : option UploadedFile) (run_clicked : bool)
  : M unit :=
  (match uploaded with
   | Some up => emit (st_file_info (name up) (length (getvalue up)))
   | None => mret tt
   end ;;;
   match uploaded with
   | Some up =>
       if run_clicked then
         let pdf_bytes := getvalue up in
         match pdf_bytes with
         | [] => emit st_warning_empty_file
         | _ :: _ =>
             r <- attempt (remove_blank_pages pdf_bytes) ;;
             match r with
             | Raise exc => emit (st_error exc)
             | Return (cleaned_bytes, total_pages, removed_pages) =>
                 let kept_pages := (total_pages - removed_pages)%Z in
                 emit st_success ;;;
                 emit (st_metric TotalPages total_pages) ;;;
                 emit (st_metric Removed removed_pages) ;;;
                 emit (st_metric Kept kept_pages) ;;;
                 emit (st_download_button cleaned_bytes
                         ("cleaned_" ++ name up))
             end
         end
       else mret tt
   | None => mret tt
   end)%M.

End Library.

(** The log once the file information is drawn. *)
Definition after_file_info (up : UploadedFile) (log : list event)
  : list event :=
  log ++ [st_file_info (name up) (length (getvalue up))].

(** ** Sample pages and a miniature library *)

(** A dictionary entry whose value is the name [s]. *)
Definition name_entry (k s : string) : string * obj :=
  (k, Direct (NameObject s)).

Definition image_xobject : direct :=
  DictionaryObject
    [name_entry "/Type" "/XObject"; name_entry "/Subtype" "/Image"].

Definition form_xobject : direct :=
  DictionaryObject
    [name_entry "/Type" "/XObject"; name_entry "/Subtype" "/Form"].

(** A page with the given text and entries besides its /Type. *)
Definition page_with (s : text) (entries : list (string * obj))
  : PageObject :=
  page_of_dict (Return (Some s)) (name_entry "/Type" "/Page" :: entries).

(** A page with the given text and XObject entries and nothing else. *)
Definition page_with_xobjects (s : text)
    (xobjects : list (string * obj)) : PageObject :=
  page_with s
    [("/Resources",
      Direct (DictionaryObject
                [("/XObject", Direct (DictionaryObject xobjects))]))].

Definition page_empty : PageObject := page_with [] [].

Definition page_hello : PageObject := page_with (codepoints "Hello") [].

(** The text is a space, a line feed, a tab and an ideographic space
    (U+3000). *)
Definition page_whitespace : PageObject :=
  page_with [32; 10; 9; 12288]%N [].

Definition page_empty_annots : PageObject :=
  page_with [] [("/Annots", Direct (ArrayObject []))].

Definition page_one_annot : PageObject :=
  page_with []
    [("/Annots",
      Direct (ArrayObject
                [IndirectObject
                   (Some (DictionaryObject
                            [name_entry "/Type" "/Annot";
                             name_entry "/Subtype" "/Link"]))]))].

(** The /Annots entry is a reference to an empty array. *)
Definition page_annots_reference_to_empty : PageObject :=
  page_with [] [("/Annots", IndirectObject (Some (ArrayObject [])))].

(** The same, under text made of white space. *)
Definition page_whitespace_annots_reference : PageObject :=
  page_with [32; 10]%N [("/Annots", IndirectObject (Some (ArrayObject [])))].

Definition page_image : PageObject :=
  page_with_xobjects [] [("/Im0", IndirectObject (Some image_xobject))].

Definition page_form_only : PageObject :=
  page_with_xobjects [] [("/Fm0", IndirectObject (Some form_xobject))].

(** The /XObject entry is an array with one image. *)
Definition page_image_in_array : PageObject :=
  page_with []
    [("/Resources",
      Direct (DictionaryObject
                [("/XObject",
                  Direct (ArrayObject
                            [IndirectObject (Some image_xobject)]))]))].

(** The first XObject entry is a number, which has no [get]; the second is
    an image. *)
Definition page_image_after_number : PageObject :=
  page_with_xobjects []
    [("/X0", Direct (NumberObject 3));
     ("/Im0", IndirectObject (Some image_xobject))].

(** The /XObject entry is a reference that dangles. *)
Definition page_dangling_xobjects : PageObject :=
  page_with []
    [("/Resources",
      Direct (DictionaryObject [("/XObject", IndirectObject None)]))].

(** The /Resources entry is a reference that dangles. *)
Definition page_dangling_resources : PageObject :=
  page_with [] [("/Resources", IndirectObject None)].

(** The same, under text made of white space. *)
Definition page_whitespace_dangling_resources : PageObject :=
  page_with [32; 10]%N [("/Resources", IndirectObject None)].

(** An empty /Annots array in place and a /Resources reference that
    dangles. *)
Definition page_empty_annots_dangling_resources : PageObject :=
  page_with []
    [("/Annots", Direct (ArrayObject []));
     ("/Resources", IndirectObject None)].

(** A page whose text extraction raises. *)
Definition page_text_raises : PageObject :=
  page_of_dict (Raise (OtherError "ValueError"))
    [name_entry "/Type" "/Page"].

(** An object passed as a page whose [get] raises. *)
Definition page_get_raises : PageObject :=
  {| extract_text := Return (Some []);
     get := fun _ => Raise (OtherError "RuntimeError") |}.

(** A miniature document format to run the filter on: one byte per page,
    0 for an empty page and 1 for a page with text. *)
Definition decode_page (b : byte) : result PageObject :=
  match b with
  | x00 => Return page_empty
  | x01 => Return page_hello
  | _ => Raise PdfReadError
  end.

Fixpoint decode_pages (data : bytes) : result (list PageObject) :=
  match data with
  | [] => Return []
  | b :: rest =>
      (p <- decode_page b ;;
       ps <- decode_pages rest ;;
       Return (p :: ps))%result
  end.

Definition sample_PdfReader (data : bytes) : result Reader :=
  match data with
  | [] => Raise EmptyFileError
  | _ :: _ => (ps <- decode_pages data ;; Return {| pages := ps |})%result
  end.

Definition encode_page (p : PageObject) : byte :=
  if blank_verdict p then x00 else x01.

Definition sample_write (writer : Writer) : result bytes :=
  Return (map encode_page (writer_pages writer)).

(** * Properties *)

(** ** Strings *)

Lemma str_truthy_false (s : text) : str_truthy s = false <-> s = [].
Proof.
  destruct s; simpl; split; intros H; try reflexivity; discriminate.
Qed.

Lemma lstrip_all_whitespace (s : text) :
  all_whitespace s = true -> lstrip s = [].
Proof.
  unfold all_whitespace.
  induction s as [|c rest IH]; simpl; intros H.
  - reflexivity.
  - apply andb_true_iff in H as [Hc Hrest].
    rewrite Hc. now apply IH.
Qed.

Lemma lstrip_head (s : text) :
  all_whitespace s = false ->
  exists c rest, lstrip s = c :: rest /\ isspace c = false.
Proof.
  unfold all_whitespace.
  induction s as [|c rest IH]; simpl; intros H.
  - discriminate.
  - destruct (isspace c) eqn:Hc; simpl in H.
    + now apply IH.
    + now exists c, rest.
Qed.

(** Stripping yields the empty string exactly for strings made of white
    space only. *)
Lemma strip_empty_iff (s : text) :
  strip s = [] <-> all_whitespace s = true.
Proof.
  unfold strip. split.
  - intros H. destruct (all_whitespace s) eqn:Hall; [reflexivity|].
    destruct (lstrip_head s Hall) as (c & rest & Hl & Hc).
    rewrite Hl in H. simpl in H. rewrite Hc in H. discriminate.
  - intros H. now rewrite (lstrip_all_whitespace s H).
Qed.

(** ** Library objects *)

Lemma as_dict_truthy_get (o : obj) (d : list (string * obj)) (key : string) :
  as_dict o = Return d -> dict_get d key <> PyNone -> truthy o = true.
Proof.
  unfold as_dict.
  destruct o as [|o|[o|]]; simpl; try discriminate; try reflexivity.
  destruct o; try discriminate.
  intros [= ->]. destruct d; simpl; [congruence|reflexivity].
Qed.

Lemma enumerate_from_nil (start : nat) (items : list obj) :
  enumerate_from start items = [] -> items = [].
Proof. destruct items; [reflexivity|discriminate]. Qed.

(** ** The XObject loop *)

(** The loop only ever returns [False], and only at an image entry. *)
Lemma xobject_loop_returns (xs : list (key * obj)) (v : bool) :
  xobject_loop xs = Return (Some v) ->
  v = false /\ existsb (fun kv => is_image (snd kv)) xs = true.
Proof.
  induction xs as [|[k x] rest IH]; simpl; intros H.
  - discriminate.
  - unfold obj_get, is_image in *.
    destruct (as_dict x) as [d|e]; simpl in H; [|discriminate].
    destruct (eq_str (dict_get d "/Subtype") "/Image") eqn:Himg; simpl.
    + injection H as <-. split; reflexivity.
    + apply IH in H. exact H.
Qed.

(** An image entry is found when nothing before it raises. *)
Lemma xobject_loop_reachable (xs : list (key * obj)) :
  image_reachable xs -> xobject_loop xs = Return (Some false).
Proof.
  intros (pre & k & x & post & -> & Himg & Hpre).
  induction pre as [|[k' x'] pre IH]; simpl in *.
  - unfold obj_get, is_image in *.
    destruct (as_dict x) as [d|e]; simpl; [|discriminate].
    now rewrite Himg.
  - apply andb_true_iff in Hpre as [Hx' Hpre].
    unfold obj_get, inspectable in *.
    destruct (as_dict x') as [d|e]; simpl; [|discriminate].
    destruct (eq_str (dict_get d "/Subtype") "/Image"); [reflexivity|].
    now apply IH.
Qed.

(** Conversely, when the loop returns, an image entry was reached. *)
Lemma xobject_loop_returns_reachable (xs : list (key * obj)) (v : bool) :
  xobject_loop xs = Return (Some v) -> image_reachable xs.
Proof.
  induction xs as [|[k x] rest IH]; simpl; intros H.
  - discriminate.
  - unfold obj_get in H.
    destruct (as_dict x) as [d|e] eqn:Hd; cbn [rbind] in H; [|discriminate].
    destruct (eq_str (dict_get d "/Subtype") "/Image") eqn:Himg.
    + exists [], k, x, rest. unfold is_image. rewrite Hd. repeat split.
      exact Himg.
    + destruct (IH H) as (pre & k' & x' & post & -> & Himg' & Hpre).
      exists ((k, x) :: pre), k', x', post. repeat split; trivial.
      cbn. unfold inspectable at 1. now rewrite Hd.
Qed.

Lemma image_reachable_exists (xs : list (key * obj)) :
  image_reachable xs -> existsb (fun kv => is_image (snd kv)) xs = true.
Proof.
  intros (pre & k & x & post & -> & Himg & _).
  rewrite existsb_app. cbn. rewrite Himg. now rewrite orb_true_r.
Qed.

(** ** The classifier, step by step *)

Ltac step_classifier :=
  unfold is_page_blank;
  repeat match goal with
         | H : extract_text _ = _ |- _ => rewrite H; clear H; cbn [rbind]
         | H : strip _ = _ |- _ => rewrite H; clear H; cbn [str_truthy]
         | H : get _ _ = _ |- _ => rewrite H; clear H; cbn [rbind]
         | H : truthy _ = _ |- _ => rewrite H; clear H
         end.

Lemma classifier_text_raises (page : PageObject) (e : exn) :
  extract_text page = Raise e -> is_page_blank page = Raise e.
Proof. intros H. now step_classifier. Qed.


Lemma classifier_annots_raises (page : PageObject) (t : option text)
    (e : exn) :
  extract_text page = Return t -> strip (or_empty t) = [] ->
  get page "/Annots" = Raise e -> is_page_blank page = Raise e.
Proof. intros Ht Hs Ha. now step_classifier. Qed.


Lemma classifier_resources_raises (page : PageObject) (t : option text)
    (a : obj) (e : exn) :
  extract_text page = Return t -> strip (or_empty t) = [] ->
  get page "/Annots" = Return a -> truthy a = false ->
  get page "/Resources" = Raise e -> is_page_blank page = Raise e.
Proof. intros Ht Hs Ha Hta Hr. now step_classifier. Qed.

Lemma classifier_after_resources (page : PageObject) (t : option text)
    (a r : obj) :
  extract_text page = Return t -> strip (or_empty t) = [] ->
  get page "/Annots" = Return a -> truthy a = false ->
  get page "/Resources" = Return r ->
  is_page_blank page = after_resources r.
Proof. intros Ht Hs Ha Hta Hr. now step_classifier. Qed.

Lemma declares_annotations_truthy (a : obj) :
  declares_annotations a = true -> truthy a = true.
Proof.
  unfold declares_annotations, resolved.
  destruct a as [|d|[d|]]; simpl; try discriminate; try reflexivity.
  destruct d; try discriminate. destruct items; [discriminate|reflexivity].
Qed.

Lemma empty_in_place_falsy (a : obj) :
  empty_collection_in_place a -> truthy a = false.
Proof. intros [->| ->]; reflexivity. Qed.

(** An error in the [try] block leaves the classifier at [return True]. *)
Lemma after_resources_swallows (r xo : obj) (e : exn) :
  truthy r = true -> obj_get r "/XObject" = Return xo -> truthy xo = true ->
  inspect_xobjects xo = Raise e ->
  after_resources r = Return true.
Proof.
  intros Hr Hxo Htxo Hin. unfold after_resources.
  rewrite Hr, Hxo. cbn [rbind]. rewrite Htxo, Hin. reflexivity.
Qed.

(** [after_resources] raises only when [resources.get] does. *)
Lemma after_resources_raises (r : obj) (e : exn) :
  after_resources r = Raise e ->
  truthy r = true /\ obj_get r "/XObject" = Raise e.
Proof.
  unfold after_resources. destruct (truthy r); [|discriminate].
  destruct (obj_get r "/XObject") as [xo|e']; cbn [rbind].
  - destruct (truthy xo); [|discriminate].
    destruct (inspect_xobjects xo) as [[v|]|e'']; discriminate.
  - intros [= ->]. split; reflexivity.
Qed.

Lemma mapping_truthy (xo o : obj) (xs : list (key * obj)) :
  get_object xo = Return o -> obj_items o = Return xs -> xs <> [] ->
  truthy xo = true.
Proof.
  destruct xo as [|d|[d|]]; simpl; try discriminate; try reflexivity.
  intros [= <-]. unfold obj_items. simpl.
  destruct d; try discriminate; intros [= <-] Hne; simpl.
  - destruct items; [now destruct Hne|reflexivity].
  - destruct entries; [now destruct Hne|reflexivity].
Qed.

(** No image entry is reached in the resolved mapping: the page is left
    blank. *)
Lemma after_resources_unreachable (r : obj) :
  resources_ok r ->
  (forall xs, xobject_mapping r = Some xs -> ~ image_reachable xs) ->
  after_resources r = Return true.
Proof.
  intros Hok Hno. unfold after_resources.
  destruct (truthy r) eqn:Hr; [|reflexivity].
  destruct Hok as [Hfalse|[d Hd]]; [congruence|].
  unfold xobject_mapping, obj_get in *.
  rewrite Hd in *. cbn [rbind].
  destruct (truthy (dict_get d "/XObject")); [|reflexivity].
  unfold inspect_xobjects.
  destruct (get_object (dict_get d "/XObject")) as [o|e]; cbn [rbind] in *;
    [|reflexivity].
  destruct (obj_items o) as [xs|e]; cbn [rbind] in *; [|reflexivity].
  destruct (xobject_loop xs) as [[v|]|e] eqn:Hloop; cbn; try reflexivity.
  apply xobject_loop_returns_reachable in Hloop.
  now destruct (Hno xs eq_refl).
Qed.

Lemma after_resources_no_image (r : obj) :
  resources_ok r -> has_image_xobject r = false ->
  after_resources r = Return true.
Proof.
  intros Hok Hno. apply after_resources_unreachable; [exact Hok|].
  intros xs Hmap Hreach. unfold has_image_xobject in Hno.
  rewrite Hmap, (image_reachable_exists Hreach) in Hno. discriminate.
Qed.

(** An image entry with nothing raising before it: the page is not blank. *)
Lemma after_resources_image (r : obj) (xs : list (key * obj)) :
  xobject_mapping r = Some xs -> image_reachable xs ->
  after_resources r = Return false.
Proof.
  intros Hmap Hreach. unfold xobject_mapping in Hmap.
  destruct (as_dict r) as [d|e] eqn:Hd; [|discriminate].
  destruct (get_object (dict_get d "/XObject")) as [o|e] eqn:Ho;
    cbn [rbind] in Hmap; [|discriminate].
  destruct (obj_items o) as [xs'|e] eqn:Hitems; [|discriminate].
  injection Hmap as ->.
  assert (Hne : xs <> []).
  { destruct Hreach as (pre & k & x & post & -> & _). now destruct pre. }
  assert (Hnone : dict_get d "/XObject" <> PyNone).
  { intros Heq. rewrite Heq in Ho. discriminate. }
  unfold after_resources, obj_get.
  rewrite (as_dict_truthy_get r "/XObject" Hd Hnone), Hd. cbn [rbind].
  rewrite (mapping_truthy _ Ho Hitems Hne).
  unfold inspect_xobjects. rewrite Ho. cbn [rbind]. rewrite Hitems.
  cbn [rbind]. now rewrite (xobject_loop_reachable Hreach).
Qed.

(** ** Kept and removed pages *)

Lemma blank_verdict_Return (p : PageObject) (v : bool) :
  is_page_blank p = Return v -> blank_verdict p = v.
Proof. unfold blank_verdict. intros ->. now destruct v. Qed.

Lemma nonblank_pages_subsequence (ps : list PageObject) :
  subsequence (nonblank_pages ps) ps.
Proof.
  induction ps as [|p ps IH]; simpl.
  - constructor.
  - destruct (blank_verdict p); simpl; now constructor.
Qed.

Lemma kept_plus_blank (ps : list PageObject) :
  length (nonblank_pages ps) + count_blank ps = length ps.
Proof.
  unfold nonblank_pages, count_blank.
  induction ps as [|p ps IH]; simpl; [reflexivity|].
  destruct (blank_verdict p); simpl; lia.
Qed.

Lemma nonblank_pages_none_blank (ps : list PageObject) :
  count_blank ps = 0 -> nonblank_pages ps = ps.
Proof.
  unfold nonblank_pages, count_blank.
  induction ps as [|p ps IH]; simpl; [reflexivity|].
  destruct (blank_verdict p); simpl; [discriminate|].
  intros H. now rewrite IH.
Qed.

Lemma nonblank_pages_all_blank (ps : list PageObject) :
  Forall (fun p => is_page_blank p = Return true) ps ->
  nonblank_pages ps = [] /\ count_blank ps = length ps.
Proof.
  unfold nonblank_pages, count_blank.
  induction 1 as [|p ps Hp _ [IHk IHc]]; simpl; [split; reflexivity|].
  rewrite (blank_verdict_Return _ Hp). simpl. now rewrite IHk, IHc.
Qed.

Lemma all_blank_classified (ps : list PageObject) :
  Forall (fun p => is_page_blank p = Return true) ps -> Forall classified ps.
Proof.
  intros H. eapply Forall_impl; [|exact H].
  intros p Hp. now exists true.
Qed.

(** ** The page loop *)

Lemma page_loop_classified (ps : list PageObject) :
  Forall classified ps ->
  forall (writer : Writer) (removed : Z),
    page_loop ps writer removed =
    Return ({| writer_pages := writer_pages writer ++ nonblank_pages ps |},
            (removed + Z.of_nat (count_blank ps))%Z).
Proof.
  unfold nonblank_pages, count_blank.
  induction 1 as [|p ps [v Hv] _ IH]; intros writer removed.
  - simpl. rewrite app_nil_r, Z.add_0_r. now destruct writer.
  - cbn [page_loop filter]. rewrite Hv. cbn [rbind].
    rewrite (blank_verdict_Return _ Hv). destruct v; cbn [negb].
    + rewrite IH. cbn [length]. f_equal. f_equal. lia.
    + rewrite IH. cbn [add_page writer_pages]. now rewrite <- app_assoc.
Qed.

Lemma page_loop_returns (ps : list PageObject) :
  forall (writer writer' : Writer) (removed removed' : Z),
    page_loop ps writer removed = Return (writer', removed') ->
    Forall classified ps.
Proof.
  induction ps as [|p ps IH]; intros writer writer' removed removed' H.
  - constructor.
  - cbn [page_loop] in H.
    destruct (is_page_blank p) as [v|e] eqn:Hv; cbn [rbind] in H;
      [|discriminate].
    constructor; [now exists v|].
    destruct v; eapply IH; exact H.
Qed.

(** The loop stops at the first page on which the classifier raises. *)
Lemma page_loop_raises (pre post : list PageObject) (p : PageObject)
    (e : exn) :
  Forall classified pre -> is_page_blank p = Raise e ->
  forall (writer : Writer) (removed : Z),
    page_loop (pre ++ p :: post) writer removed = Raise e.
Proof.
  intros Hpre Hp.
  induction Hpre as [|q pre [v Hv] _ IH]; intros writer removed.
  - cbn [app page_loop]. now rewrite Hp.
  - cbn [app page_loop]. rewrite Hv. cbn [rbind]. destruct v; apply IH.
Qed.

(** The loop raises as soon as some page makes the classifier raise,
    whatever the pages before it do. *)
Lemma page_loop_raises_somewhere (pre post : list PageObject)
    (p : PageObject) (e : exn) :
  is_page_blank p = Raise e ->
  forall (writer : Writer) (removed : Z),
    exists e' : exn,
      page_loop (pre ++ p :: post) writer removed = Raise e' /\
      (Forall classified pre -> e' = e).
Proof.
  intros Hp. induction pre as [|q pre IH]; intros writer removed.
  - exists e. cbn [app page_loop]. rewrite Hp. split; reflexivity.
  - cbn [app page_loop].
    destruct (is_page_blank q) as [v|eq] eqn:Hq; cbn [rbind].
    + destruct v.
      * destruct (IH writer (removed + 1)%Z) as (e' & Hloop & Hsame).
        exists e'. split; [exact Hloop|].
        intros Hall. apply Hsame. now inversion Hall.
      * destruct (IH (add_page writer q) removed) as (e' & Hloop & Hsame).
        exists e'. split; [exact Hloop|].
        intros Hall. apply Hsame. now inversion Hall.
    + exists eq. split; [reflexivity|].
      intros Hall. inversion Hall as [|? ? [v Hv] _]; subst. congruence.
Qed.

(** ** The filter *)

Section LibraryFacts.

Variable PdfReader : bytes -> result Reader.
Variable write : Writer -> result bytes.

(** A run of the filter on a document each page of which gets a verdict:
    one parse, one serialization of the kept pages, and the counts. *)
Lemma remove_blank_pages_run (b : bytes) (reader : Reader)
    (log : list event) :
  PdfReader b = Return reader ->
  Forall classified (pages reader) ->
  remove_blank_pages PdfReader write b log =
  ((out <- write {| writer_pages := nonblank_pages (pages reader) |} ;;
    Return (out, Z.of_nat (length (pages reader)),
            Z.of_nat (count_blank (pages reader))))%result,
   log ++ [ev_parse b; ev_write (nonblank_pages (pages reader))]).
Proof.
  intros Hparse Hall.
  unfold remove_blank_pages, call_PdfReader, call_write, mbind, emit, lift,
    mret.
  rewrite Hparse, (page_loop_classified Hall). cbn.
  rewrite <- app_assoc. cbn.
  destruct (write _); reflexivity.
Qed.

(** A parse error: the filter raises it and nothing is serialized. *)
Lemma remove_blank_pages_parse_error (b : bytes) (e : exn)
    (log : list event) :
  PdfReader b = Raise e ->
  remove_blank_pages PdfReader write b log = (Raise e, log ++ [ev_parse b]).
Proof.
  intros Hparse.
  unfold remove_blank_pages, call_PdfReader, mbind, emit, lift.
  now rewrite Hparse.
Qed.

(** A classifier error: the filter raises it and nothing is serialized. *)
Lemma remove_blank_pages_page_error (b : bytes) (reader : Reader)
    (pre post : list PageObject) (p : PageObject) (e : exn)
    (log : list event) :
  PdfReader b = Return reader ->
  pages reader = pre ++ p :: post ->
  Forall classified pre -> is_page_blank p = Raise e ->
  remove_blank_pages PdfReader write b log = (Raise e, log ++ [ev_parse b]).
Proof.
  intros Hparse Hpages Hpre Hp.
  unfold remove_blank_pages, call_PdfReader, mbind, emit, lift.
  rewrite Hparse, Hpages, (@page_loop_raises pre post p e Hpre Hp).
  reflexivity.
Qed.

(** A run that returns has parsed the input and classified every page. *)
Lemma remove_blank_pages_returns (b out : bytes) (total removed : Z)
    (log log' : list event) :
  remove_blank_pages PdfReader write b log
    = (Return (out, total, removed), log') ->
  exists reader,
    PdfReader b = Return reader /\ Forall classified (pages reader).
Proof.
  unfold remove_blank_pages, call_PdfReader, call_write, mbind, emit, lift,
    mret.
  destruct (PdfReader b) as [reader|e]; [|discriminate].
  destruct (page_loop (pages reader) PdfWriter 0) as [[w n]|e] eqn:Hloop;
    [|discriminate].
  intros _. exists reader. split; [reflexivity|].
  eapply page_loop_returns; exact Hloop.
Qed.

End LibraryFacts.

(** ** The classifier on the sample pages *)

Example strip_spaces_around :
  strip (codepoints "  a b  ") = codepoints "a b".
Proof. reflexivity. Qed.

Example strip_unicode_spaces : strip [12288; 97; 8195]%N = [97]%N.
Proof. reflexivity. Qed.

Example empty_page_blank : is_page_blank page_empty = Return true.
Proof. reflexivity. Qed.

Example text_page_not_blank : is_page_blank page_hello = Return false.
Proof. reflexivity. Qed.

Example annotated_page_not_blank : is_page_blank page_one_annot = Return false.
Proof. reflexivity. Qed.

Example image_page_not_blank : is_page_blank page_image = Return false.
Proof. reflexivity. Qed.

Example image_in_array_not_blank :
  is_page_blank page_image_in_array = Return false.
Proof. reflexivity. Qed.

Example form_only_page_blank : is_page_blank page_form_only = Return true.
Proof. reflexivity. Qed.

Example null_annots_not_blank :
  is_page_blank (page_with [] [("/Annots", Direct NullObject)])
  = Return false.
Proof. reflexivity. Qed.

Example get_error_propagates :
  is_page_blank page_get_raises = Raise (OtherError "RuntimeError").
Proof. reflexivity. Qed.

(** A Resources entry that is neither absent nor a dictionary makes the
    classifier raise: line 27 is outside the [try] block. *)
Example malformed_resources_raise :
  is_page_blank (page_with [] [("/Resources", Direct (NumberObject 7))])
  = Raise AttributeError.
Proof. reflexivity. Qed.

(** ** The classifier: claims *)





(** C4 (as stated, fails).  On [page_dangling_resources] the image
    inspection of lines 25-35 raises while it looks for the XObject
    mapping: the Resources value is a reference that dangles, and
    [resources.get("/XObject")] at line 27, outside the [try] block, raises
    AttributeError.  The classifier raises it and a filter run over a
    document with this page aborts without calling the writer. *)
Lemma resources_error_escapes_the_classifier :
  extract_text page_dangling_resources = Return (Some []) /\
  get page_dangling_resources "/Annots" = Return PyNone /\
  get page_dangling_resources "/Resources" = Return (IndirectObject None) /\
  obj_get (IndirectObject None) "/XObject" = Raise AttributeError /\
  is_page_blank page_dangling_resources = Raise AttributeError /\
  remove_blank_pages
    (fun _ => Return {| pages := [page_hello; page_dangling_resources] |})
    sample_write [x01; x01] []
  = (Raise AttributeError, [ev_parse [x01; x01]]).
Proof. repeat split. Qed.

(** C4 (amended).  When the classifier reaches the [try] block (no text, a
    false /Annots value, a true Resources value whose [get] returns a true
    /XObject value) and resolving the mapping, taking its items or reading
    an entry's subtype raises, the error is swallowed: the classifier
    returns blank, and a filter run over a document with that page goes on
    and drops the page as blank. *)
Theorem inspection_error_is_swallowed (page : PageObject)
    (t : option text) (a r xo : obj) (e : exn) :
  extract_text page = Return t -> strip (or_empty t) = [] ->
  get page "/Annots" = Return a -> truthy a = false ->
  get page "/Resources" = Return r -> truthy r = true ->
  obj_get r "/XObject" = Return xo -> truthy xo = true ->
  inspect_xobjects xo = Raise e ->
  is_page_blank page = Return true /\
  forall (PdfReader : bytes -> result Reader) (write : Writer -> result bytes)
         (b : bytes) (reader : Reader) (pre post : list PageObject)
         (log : list event),
    PdfReader b = Return reader ->
    pages reader = pre ++ page :: post ->
    Forall classified pre -> Forall classified post ->
    remove_blank_pages PdfReader write b log =
    ((out <- write {| writer_pages :=
                        nonblank_pages pre ++ nonblank_pages post |} ;;
      Return (out, Z.of_nat (length (pages reader)),
              Z.of_nat (count_blank (pages reader))))%result,
     log ++ [ev_parse b;
             ev_write (nonblank_pages pre ++ nonblank_pages post)]).
Proof.
  intros Ht Hs Ha Hta Hr Htr Hxo Htxo Hin.
  assert (Hblank : is_page_blank page = Return true).
  { rewrite (classifier_after_resources page Ht Hs Ha Hta Hr).
    now apply after_resources_swallows with xo e. }
  split; [exact Hblank|].
  intros PdfReader write b reader pre post log Hparse Hpages Hpre Hpost.
  assert (Hall : Forall classified (pages reader)).
  { rewrite Hpages. apply Forall_app. split; [exact Hpre|].
    constructor; [now exists true | exact Hpost]. }
  rewrite (@remove_blank_pages_run PdfReader write b reader log Hparse Hall).
  assert (Hkept : nonblank_pages (pages reader)
                  = nonblank_pages pre ++ nonblank_pages post).
  { rewrite Hpages. unfold nonblank_pages. rewrite filter_app. cbn [filter].
    now rewrite (blank_verdict_Return _ Hblank). }
  now rewrite Hkept.
Qed.

Lemma inspection_error_is_swallowed_witness :
  is_page_blank page_dangling_xobjects = Return true.
Proof.
  apply (@inspection_error_is_swallowed page_dangling_xobjects (Some [])
           PyNone
           (Direct (DictionaryObject [("/XObject", IndirectObject None)]))
           (IndirectObject None) AttributeError);
    reflexivity.
Defined.

(** C7 (as stated, fails), in two ways.  [page_whitespace_annots_reference]
    has text made of white space, declares no annotation and has no image
    XObject, yet the verdict is not blank: its /Annots value is a reference
    to an empty array, and a reference is true.
    [page_whitespace_dangling_resources] has text made of white space, no
    annotations and no image XObject, and gets no verdict: its Resources
    value is a reference that dangles and [resources.get] raises. *)
Lemma whitespace_page_is_not_always_blank :
  ((exists t,
       extract_text page_whitespace_annots_reference = Return (Some t) /\
       all_whitespace t = true) /\
   (exists a,
       get page_whitespace_annots_reference "/Annots" = Return a /\
       declares_annotations a = false) /\
   (exists r,
       get page_whitespace_annots_reference "/Resources" = Return r /\
       has_image_xobject r = false) /\
   is_page_blank page_whitespace_annots_reference = Return false) /\
  ((exists t,
       extract_text page_whitespace_dangling_resources = Return (Some t) /\
       all_whitespace t = true) /\
   get page_whitespace_dangling_resources "/Annots" = Return PyNone /\
   (exists r,
       get page_whitespace_dangling_resources "/Resources" = Return r /\
       has_image_xobject r = false) /\
   is_page_blank page_whitespace_dangling_resources = Raise AttributeError).
Proof.
  repeat split; eexists; split; reflexivity.
Qed.

(** C7 (amended).  A page whose text is white space only, whose /Annots
    value is false (the entry is absent, or is an empty array stored in the
    page itself), whose Resources value is false or a dictionary, and which
    has no image XObject, is classified blank. *)
Theorem whitespace_only_page_is_blank (page : PageObject)
    (t : option text) (a r : obj) :
  extract_text page = Return t -> all_whitespace (or_empty t) = true ->
  get page "/Annots" = Return a -> truthy a = false ->
  get page "/Resources" = Return r -> resources_ok r ->
  has_image_xobject r = false ->
  is_page_blank page = Return true.
Proof.
  intros Ht Hws Ha Hta Hr Hok Hnoimg.
  apply strip_empty_iff in Hws.
  rewrite (classifier_after_resources page Ht Hws Ha Hta Hr).
  now apply after_resources_no_image.
Qed.

Lemma whitespace_only_page_is_blank_witness :
  is_page_blank page_whitespace = Return true.
Proof.
  apply (@whitespace_only_page_is_blank page_whitespace
           (Some [32; 10; 9; 12288]%N) PyNone PyNone).
  - reflexivity.
  - reflexivity.
  - reflexivity.
  - reflexivity.
  - reflexivity.
  - left. reflexivity.
  - reflexivity.
Defined.

(** C9 (as stated, fails), in two ways.  On
    [page_annots_reference_to_empty] the /Annots entry is an empty
    collection, reached through a reference, text and image are absent,
    yet the verdict is not blank: the reference itself is true.  On
    [page_empty_annots_dangling_resources] the /Annots entry is an empty
    array in place, text and image are absent, and there is no verdict:
    [resources.get] raises on the dangling Resources reference. *)
Lemma empty_annots_are_not_always_ignored :
  (extract_text page_annots_reference_to_empty = Return (Some []) /\
   (exists a,
       get page_annots_reference_to_empty "/Annots" = Return a /\
       is_empty_collection a = true) /\
   (exists r,
       get page_annots_reference_to_empty "/Resources" = Return r /\
       has_image_xobject r = false) /\
   is_page_blank page_annots_reference_to_empty = Return false) /\
  (extract_text page_empty_annots_dangling_resources = Return (Some []) /\
   (exists a,
       get page_empty_annots_dangling_resources "/Annots" = Return a /\
       is_empty_collection a = true) /\
   (exists r,
       get page_empty_annots_dangling_resources "/Resources" = Return r /\
       has_image_xobject r = false) /\
   is_page_blank page_empty_annots_dangling_resources
     = Raise AttributeError).
Proof.
  repeat split; eexists; split; reflexivity.
Qed.

(** C9 (amended).  A page whose /Annots entry is an empty collection stored
    in the page itself is treated as a page without annotations: with no
    text, a Resources value that is false or a dictionary, and no image
    XObject, it is classified blank. *)
Theorem empty_annots_page_is_blank (page : PageObject)
    (t : option text) (a r : obj) :
  extract_text page = Return t -> strip (or_empty t) = [] ->
  get page "/Annots" = Return a -> empty_collection_in_place a ->
  get page "/Resources" = Return r -> resources_ok r ->
  has_image_xobject r = false ->
  is_page_blank page = Return true.
Proof.
  intros Ht Hs Ha Hempty Hr Hok Hnoimg.
  rewrite (classifier_after_resources page Ht Hs Ha
             (empty_in_place_falsy Hempty) Hr).
  now apply after_resources_no_image.
Qed.

Lemma empty_annots_page_is_blank_witness :
  is_page_blank page_empty_annots = Return true.
Proof.
  apply (@empty_annots_page_is_blank page_empty_annots (Some [])
           (Direct (ArrayObject [])) PyNone).
  - reflexivity.
  - reflexivity.
  - reflexivity.
  - left. reflexivity.
  - reflexivity.
  - left. reflexivity.
  - reflexivity.
Defined.

(** ** The front end *)

Section FrontEnd.

Variable PdfReader : bytes -> result Reader.
Variable write : Writer -> result bytes.

Lemma run_app_empty (up : UploadedFile) (log : list event) :
  getvalue up = [] ->
  run_app PdfReader write (Some up) true log =
  (Return tt, after_file_info up log ++ [st_warning_empty_file]).
Proof.
  intros Hempty. unfold run_app, after_file_info, mbind, emit.
  now rewrite Hempty.
Qed.

Lemma run_app_error (up : UploadedFile) (log log1 : list event) (e : exn) :
  getvalue up <> [] ->
  remove_blank_pages PdfReader write (getvalue up) (after_file_info up log)
    = (Raise e, log1) ->
  run_app PdfReader write (Some up) true log =
  (Return tt, log1 ++ [st_error e]).
Proof.
  intros Hne Hrun. unfold run_app, after_file_info, mbind, emit, attempt in *.
  destruct (getvalue up) as [|b0 bs] eqn:Hval; [congruence|].
  cbn [length] in *. now rewrite Hrun.
Qed.

Lemma run_app_success (up : UploadedFile) (log log1 : list event)
    (cleaned : bytes) (total removed : Z) :
  getvalue up <> [] ->
  remove_blank_pages PdfReader write (getvalue up) (after_file_info up log)
    = (Return (cleaned, total, removed), log1) ->
  run_app PdfReader write (Some up) true log =
  (Return tt,
   log1 ++ [st_success; st_metric TotalPages total;
            st_metric Removed removed;
            st_metric Kept (total - removed)%Z;
            st_download_button cleaned ("cleaned_" ++ name up)]).
Proof.
  intros Hne Hrun. unfold run_app, after_file_info, mbind, emit, attempt in *.
  destruct (getvalue up) as [|b0 bs] eqn:Hval; [congruence|].
  cbn [length] in *. rewrite Hrun.
  repeat rewrite <- app_assoc. reflexivity.
Qed.

End FrontEnd.

(** ** The filter and the front end: claims *)

Lemma classified_not_blank (p : PageObject) :
  classified p -> blank_verdict p = false -> is_page_blank p = Return false.
Proof.
  intros [v Hv] Hb. rewrite (blank_verdict_Return _ Hv) in Hb. now subst.
Qed.

(** X3.  Every error the classifier raises comes from a step outside the
    [try] block: text extraction, the /Annots or /Resources lookup, or
    [get] on the resources.  The XObject inspection never makes it raise. *)
Lemma classifier_raises_only_outside_try (page : PageObject) (e : exn) :
  is_page_blank page = Raise e -> raises_outside_try page e.
Proof.
  unfold is_page_blank.
  destruct (extract_text page) as [t|e1] eqn:Ht; cbn [rbind].
  2:{ intros [= ->]. now apply raises_in_extract_text. }
  destruct (str_truthy (strip (or_empty t))) eqn:Hs; [discriminate|].
  apply str_truthy_false in Hs.
  destruct (get page "/Annots") as [a|e1] eqn:Ha; cbn [rbind].
  2:{ intros [= ->]. now apply raises_in_annots_lookup with t. }
  destruct (truthy a) eqn:Hta; [discriminate|].
  destruct (get page "/Resources") as [r|e1] eqn:Hr; cbn [rbind].
  2:{ intros [= ->]. now apply raises_in_resources_lookup with t a. }
  intros H. apply after_resources_raises in H as [Htr Hxo].
  now apply raises_in_xobject_lookup with t a r.
Qed.

(** C2.  On a parsed document each page of which gets a verdict, the filter
    parses once, hands the writer exactly the pages not classified blank,
    unmodified and in their original order, and returns the page count and
    the number of pages classified blank.  The kept pages are the input
    pages with some left out, none of them is blank, and when no page is
    blank they are the input pages. *)
Theorem filter_keeps_nonblank_pages_in_order
    (PdfReader : bytes -> result Reader) (write : Writer -> result bytes)
    (b : bytes) (reader : Reader) (log : list event) :
  PdfReader b = Return reader ->
  Forall classified (pages reader) ->
  remove_blank_pages PdfReader write b log =
    ((out <- write {| writer_pages := nonblank_pages (pages reader) |} ;;
      Return (out, Z.of_nat (length (pages reader)),
              Z.of_nat (count_blank (pages reader))))%result,
     log ++ [ev_parse b; ev_write (nonblank_pages (pages reader))]) /\
  nonblank_pages (pages reader)
    = filter (fun p => negb (blank_verdict p)) (pages reader) /\
  subsequence (nonblank_pages (pages reader)) (pages reader) /\
  Forall (fun p => is_page_blank p = Return false)
         (nonblank_pages (pages reader)) /\
  (count_blank (pages reader) = 0 ->
   nonblank_pages (pages reader) = pages reader).
Proof.
  intros Hparse Hall. repeat split.
  - now apply remove_blank_pages_run.
  - apply nonblank_pages_subsequence.
  - apply Forall_forall. intros p Hin.
    apply filter_In in Hin as [Hin Hnb].
    apply classified_not_blank.
    + now apply (proj1 (Forall_forall _ _) Hall).
    + now apply negb_true_iff.
  - apply nonblank_pages_none_blank.
Qed.

Lemma filter_keeps_nonblank_pages_in_order_witness :
  remove_blank_pages sample_PdfReader sample_write [x01; x00; x01] [] =
  (Return ([x01; x01], 3%Z, 1%Z),
   [ev_parse [x01; x00; x01]; ev_write [page_hello; page_hello]]).
Proof.
  apply (@filter_keeps_nonblank_pages_in_order sample_PdfReader sample_write
           [x01; x00; x01]
           {| pages := [page_hello; page_empty; page_hello] |} []).
  - reflexivity.
  - repeat constructor; eexists; reflexivity.
Defined.

(** C3.  When the front end shows a summary, the three numbers are the page
    count of the parsed document, the number of pages classified blank and
    their difference, so that removed + kept = total; kept is also the
    number of pages handed to the writer. *)
Theorem summary_counts_add_up
    (PdfReader : bytes -> result Reader) (write : Writer -> result bytes)
    (up : UploadedFile) (log log1 : list event)
    (cleaned : bytes) (total removed : Z) :
  getvalue up <> [] ->
  remove_blank_pages PdfReader write (getvalue up) (after_file_info up log)
    = (Return (cleaned, total, removed), log1) ->
  exists (reader : Reader) (kept : Z),
    PdfReader (getvalue up) = Return reader /\
    run_app PdfReader write (Some up) true log =
      (Return tt,
       log1 ++ [st_success; st_metric TotalPages total;
                st_metric Removed removed; st_metric Kept kept;
                st_download_button cleaned ("cleaned_" ++ name up)]) /\
    total = Z.of_nat (length (pages reader)) /\
    removed = Z.of_nat (count_blank (pages reader)) /\
    kept = (total - removed)%Z /\
    (removed + kept = total)%Z /\
    kept = Z.of_nat (length (nonblank_pages (pages reader))).
Proof.
  intros Hne Hrun.
  destruct (remove_blank_pages_returns _ _ _ _ Hrun) as (reader & Hparse & Hall).
  exists reader, (total - removed)%Z.
  split; [exact Hparse|].
  split; [now apply run_app_success|].
  rewrite (@remove_blank_pages_run PdfReader write _ reader _ Hparse Hall)
    in Hrun.
  destruct (write _) as [out|e]; cbn [rbind] in Hrun; [|discriminate].
  injection Hrun as _ <- <- _.
  pose proof (kept_plus_blank (pages reader)) as Hsum.
  repeat split; lia.
Qed.

Lemma summary_counts_add_up_witness :
  exists (reader : Reader) (kept : Z),
    sample_PdfReader [x01; x00; x01] = Return reader /\
    run_app sample_PdfReader sample_write
      (Some {| name := "a.pdf"; getvalue := [x01; x00; x01] |}) true [] =
      (Return tt,
       [st_file_info "a.pdf" 3; ev_parse [x01; x00; x01];
        ev_write [page_hello; page_hello]]
       ++ [st_success; st_metric TotalPages 3; st_metric Removed 1;
           st_metric Kept kept;
           st_download_button [x01; x01] ("cleaned_" ++ "a.pdf")]) /\
    3%Z = Z.of_nat (length (pages reader)) /\
    1%Z = Z.of_nat (count_blank (pages reader)) /\
    kept = (3 - 1)%Z /\
    (1 + kept = 3)%Z /\
    kept = Z.of_nat (length (nonblank_pages (pages reader))).
Proof.
  apply (@summary_counts_add_up sample_PdfReader sample_write
           {| name := "a.pdf"; getvalue := [x01; x00; x01] |} []).
  - discriminate.
  - reflexivity.
Defined.

(** C5.  Running the front end on an uploaded file of length zero draws the
    empty-file warning and does nothing else: no call of the parser, no
    call of the writer, no error report and no summary. *)
Theorem empty_upload_is_rejected_before_parsing
    (PdfReader : bytes -> result Reader) (write : Writer -> result bytes)
    (up : UploadedFile) (log : list event) :
  getvalue up = [] ->
  exists added : list event,
    run_app PdfReader write (Some up) true log = (Return tt, log ++ added) /\
    added = [st_file_info (name up) 0; st_warning_empty_file] /\
    (forall data, ~ In (ev_parse data) added) /\
    (forall doc, ~ In (ev_write doc) added) /\
    (forall exc, ~ In (st_error exc) added) /\
    ~ In st_success added.
Proof.
  intros Hempty.
  exists [st_file_info (name up) 0; st_warning_empty_file].
  split.
  - rewrite (run_app_empty PdfReader write up log Hempty).
    unfold after_file_info. rewrite Hempty, <- app_assoc. reflexivity.
  - split; [reflexivity|].
    repeat split; intros; cbn [In]; intuition discriminate.
Qed.

Lemma empty_upload_is_rejected_before_parsing_witness :
  exists added : list event,
    run_app sample_PdfReader sample_write
      (Some {| name := "empty.pdf"; getvalue := [] |}) true []
      = (Return tt, [] ++ added) /\
    added = [st_file_info "empty.pdf" 0; st_warning_empty_file] /\
    (forall data, ~ In (ev_parse data) added) /\
    (forall doc, ~ In (ev_write doc) added) /\
    (forall exc, ~ In (st_error exc) added) /\
    ~ In st_success added.
Proof.
  apply (@empty_upload_is_rejected_before_parsing sample_PdfReader
           sample_write {| name := "empty.pdf"; getvalue := [] |} []).
  reflexivity.
Defined.

(** The filter itself has no such guard: called on empty input it does call
    the parser. *)
Lemma remove_blank_pages_parses_empty_input
    (PdfReader : bytes -> result Reader) (write : Writer -> result bytes)
    (log : list event) :
  exists r added,
    remove_blank_pages PdfReader write [] log
    = (r, log ++ ev_parse [] :: added).
Proof.
  unfold remove_blank_pages, call_PdfReader, call_write, mbind, emit, lift,
    mret.
  destruct (PdfReader []) as [reader|e]; [|now eexists; exists []].
  destruct (page_loop (pages reader) PdfWriter 0) as [[w n]|e];
    [|now eexists; exists []].
  destruct (write w) as [out|e]; eexists; exists [ev_write (writer_pages w)];
    rewrite <- app_assoc; reflexivity.
Qed.

(** C6.  On a parsed document whose pages are all classified blank, the
    writer is handed a document of zero pages and the number of removed
    pages is the page count. *)
Theorem all_blank_document_is_emptied
    (PdfReader : bytes -> result Reader) (write : Writer -> result bytes)
    (b : bytes) (reader : Reader) (log : list event) :
  PdfReader b = Return reader ->
  Forall (fun p => is_page_blank p = Return true) (pages reader) ->
  remove_blank_pages PdfReader write b log =
    ((out <- write {| writer_pages := [] |} ;;
      Return (out, Z.of_nat (length (pages reader)),
              Z.of_nat (length (pages reader))))%result,
     log ++ [ev_parse b; ev_write []]).
Proof.
  intros Hparse Hall.
  rewrite (@remove_blank_pages_run PdfReader write b reader log Hparse
             (all_blank_classified Hall)).
  destruct (nonblank_pages_all_blank Hall) as [-> ->]. reflexivity.
Qed.

Lemma all_blank_document_is_emptied_witness :
  remove_blank_pages sample_PdfReader sample_write [x00; x00] [] =
  (Return ([], 2%Z, 2%Z), [ev_parse [x00; x00]; ev_write []]).
Proof.
  apply (@all_blank_document_is_emptied sample_PdfReader sample_write
           [x00; x00] {| pages := [page_empty; page_empty] |} []).
  - reflexivity.
  - repeat constructor.
Defined.

(** C8.  Let a first pass return the bytes [out], and let parsing [out]
    give pages on which the classifier decides as it did on the pages the
    first pass kept.  Then a second pass on [out] removes nothing: it hands
    the writer every page and returns 0 as the number of removed pages. *)
Theorem second_pass_removes_nothing
    (PdfReader : bytes -> result Reader) (write : Writer -> result bytes)
    (b out out2 : bytes) (reader reader2 : Reader) (total removed : Z)
    (log log1 : list event) :
  PdfReader b = Return reader ->
  remove_blank_pages PdfReader write b log
    = (Return (out, total, removed), log1) ->
  PdfReader out = Return reader2 ->
  Forall2 (fun kept reparsed => is_page_blank reparsed = is_page_blank kept)
          (nonblank_pages (pages reader)) (pages reader2) ->
  write {| writer_pages := pages reader2 |} = Return out2 ->
  remove_blank_pages PdfReader write out log1 =
    (Return (out2, Z.of_nat (length (pages reader2)), 0%Z),
     log1 ++ [ev_parse out; ev_write (pages reader2)]).
Proof.
  intros Hparse Hrun Hparse2 Hsame Hwrite.
  destruct (remove_blank_pages_returns _ _ _ _ Hrun) as (reader' & Hp' & Hall).
  rewrite Hparse in Hp'. injection Hp' as <-.
  assert (Hkept : Forall (fun p => is_page_blank p = Return false)
                         (nonblank_pages (pages reader))).
  { apply Forall_forall. intros p Hin. apply filter_In in Hin as [Hin Hnb].
    apply classified_not_blank; [|now apply negb_true_iff].
    now apply (proj1 (Forall_forall _ _) Hall). }
  assert (Hnone : Forall (fun p => is_page_blank p = Return false)
                         (pages reader2)).
  { clear - Hsame Hkept.
    induction Hsame as [|k q ks qs Hkq _ IH]; [constructor|].
    inversion Hkept as [|? ? Hk Hks]; subst.
    constructor; [congruence | now apply IH]. }
  assert (Hall2 : Forall classified (pages reader2)).
  { eapply Forall_impl; [|exact Hnone]. intros p Hp. now exists false. }
  assert (Hcount : count_blank (pages reader2) = 0).
  { clear - Hnone. unfold count_blank.
    induction Hnone as [|p ps Hp _ IH]; [reflexivity|].
    cbn [filter]. now rewrite (blank_verdict_Return _ Hp). }
  rewrite (@remove_blank_pages_run PdfReader write out reader2 log1 Hparse2
             Hall2).
  rewrite (nonblank_pages_none_blank _ Hcount), Hcount, Hwrite. reflexivity.
Qed.

Lemma second_pass_removes_nothing_witness :
  remove_blank_pages sample_PdfReader sample_write [x01; x01]
    [ev_parse [x01; x00; x01]; ev_write [page_hello; page_hello]] =
  (Return ([x01; x01], 2%Z, 0%Z),
   [ev_parse [x01; x00; x01]; ev_write [page_hello; page_hello]]
   ++ [ev_parse [x01; x01]; ev_write [page_hello; page_hello]]).
Proof.
  apply (@second_pass_removes_nothing sample_PdfReader sample_write
           [x01; x00; x01] [x01; x01] [x01; x01]
           {| pages := [page_hello; page_empty; page_hello] |}
           {| pages := [page_hello; page_hello] |} 3%Z 1%Z []).
  - reflexivity.
  - reflexivity.
  - reflexivity.
  - repeat constructor.
  - reflexivity.
Defined.

(** C10.  An error met outside the [try] block (in text extraction, in the
    /Annots or /Resources lookup, or in [get] on the resources) is not
    caught by the classifier.  A filter run over a document with such a page
    raises, having parsed the input and without calling the writer, and the
    front end reports the error and offers no download; the error raised is
    the page's own when every page before it gets a verdict. *)
Theorem outside_errors_propagate (page : PageObject) (e : exn) :
  raises_outside_try page e ->
  is_page_blank page = Raise e /\
  forall (PdfReader : bytes -> result Reader) (write : Writer -> result bytes)
         (b : bytes) (reader : Reader) (pre post : list PageObject)
         (log : list event),
    PdfReader b = Return reader ->
    pages reader = pre ++ page :: post ->
    exists e' : exn,
      remove_blank_pages PdfReader write b log
        = (Raise e', log ++ [ev_parse b]) /\
      (Forall classified pre -> e' = e) /\
      forall (up : UploadedFile) (log0 : list event),
        getvalue up = b -> b <> [] -> log = after_file_info up log0 ->
        run_app PdfReader write (Some up) true log0 =
        (Return tt, log ++ [ev_parse b; st_error e']).
Proof.
  intros Hout.
  assert (Hraise : is_page_blank page = Raise e).
  { destruct Hout as [Ht | t Ht Hs Ha | t a Ht Hs Ha Hta Hr
                      | t a r Ht Hs Ha Hta Hr Htr Hxo].
    - now apply classifier_text_raises.
    - now apply classifier_annots_raises with t.
    - now apply classifier_resources_raises with t a.
    - rewrite (classifier_after_resources page Ht Hs Ha Hta Hr).
      unfold after_resources. now rewrite Htr, Hxo. }
  split; [exact Hraise|].
  intros PdfReader write b reader pre post log Hparse Hpages.
  destruct (@page_loop_raises_somewhere pre post page e Hraise PdfWriter 0%Z)
    as (e' & Hloop & Hsame).
  assert (Hrun : remove_blank_pages PdfReader write b log
                 = (Raise e', log ++ [ev_parse b])).
  { unfold remove_blank_pages, call_PdfReader, mbind, emit, lift.
    now rewrite Hparse, Hpages, Hloop. }
  exists e'. split; [exact Hrun|]. split; [exact Hsame|].
  intros up log0 Hval Hne ->. subst b.
  rewrite (run_app_error PdfReader write up log0 Hne Hrun).
  now rewrite <- app_assoc.
Qed.

Lemma outside_errors_propagate_witness :
  is_page_blank page_text_raises = Raise (OtherError "ValueError").
Proof.
  apply (@outside_errors_propagate page_text_raises (OtherError "ValueError")).
  apply raises_in_extract_text. reflexivity.
Defined.

(** * Further properties of the classifier, the filter and the front end *)

(** ** Helpers *)

Lemma after_resources_not_blank (r : obj) :
  after_resources r = Return false ->
  exists xs, xobject_mapping r = Some xs /\ image_reachable xs.
Proof.
  unfold after_resources, xobject_mapping, obj_get.
  destruct (truthy r); [|discriminate].
  destruct (as_dict r) as [d|e]; cbn [rbind]; [|discriminate].
  destruct (truthy (dict_get d "/XObject")); [|discriminate].
  unfold inspect_xobjects.
  destruct (get_object (dict_get d "/XObject")) as [o|e]; cbn [rbind];
    [|discriminate].
  destruct (obj_items o) as [xs|e]; cbn [rbind]; [|discriminate].
  destruct (xobject_loop xs) as [[v|]|e] eqn:Hloop; cbn; try discriminate.
  intros _. exists xs. split; [reflexivity|].
  now apply xobject_loop_returns_reachable with v.
Qed.

Lemma after_resources_returns (r : obj) :
  resources_ok r -> exists v, after_resources r = Return v.
Proof.
  intros [Hfalse|[d Hd]].
  { exists true. unfold after_resources. now rewrite Hfalse. }
  unfold after_resources, obj_get. rewrite Hd. cbn [rbind].
  destruct (truthy r); [|now exists true].
  destruct (truthy (dict_get d "/XObject")); [|now exists true].
  destruct (inspect_xobjects (dict_get d "/XObject")) as [[v|]|e]; cbn;
    eauto.
Qed.

Lemma mapping_resources_ok (r : obj) (xs : list (key * obj)) :
  xobject_mapping r = Some xs -> resources_ok r.
Proof.
  unfold xobject_mapping, resources_ok.
  destruct (as_dict r) as [d|e]; [eauto|discriminate].
Qed.

(** With every entry inspectable, the first image entry is reached. *)
Lemma inspectable_image_reachable (xs : list (key * obj)) :
  forallb (fun kv => inspectable (snd kv)) xs = true ->
  existsb (fun kv => is_image (snd kv)) xs = true ->
  image_reachable xs.
Proof.
  induction xs as [|[k x] rest IH]; cbn; intros Hall Hex; [discriminate|].
  apply andb_true_iff in Hall as [Hx Hrest].
  destruct (is_image x) eqn:Himg.
  - exists [], k, x, rest. repeat split. exact Himg.
  - destruct (IH Hrest Hex) as (pre & k' & x' & post & -> & Himg' & Hpre).
    exists ((k, x) :: pre), k', x', post. repeat split; trivial.
    cbn. now rewrite Hx.
Qed.

(** A loop that raises does so at its first page without a verdict. *)
Lemma page_loop_raise_origin (ps : list PageObject) (e : exn) :
  forall (writer : Writer) (removed : Z),
    page_loop ps writer removed = Raise e ->
    exists pre p post,
      ps = pre ++ p :: post /\ Forall classified pre /\
      is_page_blank p = Raise e.
Proof.
  induction ps as [|q ps IH]; intros writer removed H; [discriminate|].
  cbn [page_loop] in H.
  destruct (is_page_blank q) as [v|eq] eqn:Hq; cbn [rbind] in H.
  - assert (Hrest : exists pre p post,
               ps = pre ++ p :: post /\ Forall classified pre /\
               is_page_blank p = Raise e)
      by (destruct v; eapply IH; exact H).
    destruct Hrest as (pre & p & post & -> & Hpre & Hp).
    exists (q :: pre), p, post. repeat split; trivial.
    constructor; [now exists v | exact Hpre].
  - injection H as ->. exists [], q, ps. repeat split; trivial.
Qed.

(** ** The classifier *)

(** X1.  The classifier answers not blank only on evidence: the stripped
    text is non-empty, or the /Annots value is true, or the XObject mapping
    has an image entry that the loop reaches. *)
Theorem not_blank_has_evidence (page : PageObject) :
  is_page_blank page = Return false ->
  exists t, extract_text page = Return t /\
    (strip (or_empty t) <> [] \/
     exists a, get page "/Annots" = Return a /\
       (truthy a = true \/
        exists r xs, get page "/Resources" = Return r /\
                     xobject_mapping r = Some xs /\ image_reachable xs)).
Proof.
  unfold is_page_blank.
  destruct (extract_text page) as [t|e]; cbn [rbind]; [|discriminate].
  intros H. exists t. split; [reflexivity|].
  destruct (str_truthy (strip (or_empty t))) eqn:Hs.
  - left. intros Heq. rewrite Heq in Hs. discriminate.
  - right.
    destruct (get page "/Annots") as [a|e]; cbn [rbind] in H; [|discriminate].
    exists a. split; [reflexivity|].
    destruct (truthy a); [now left|right].
    destruct (get page "/Resources") as [r|e]; cbn [rbind] in H;
      [|discriminate].
    destruct (after_resources_not_blank r H) as (xs & Hmap & Hreach).
    now exists r, xs.
Qed.

Lemma not_blank_has_evidence_witness :
  exists t, extract_text page_hello = Return t /\
    (strip (or_empty t) <> [] \/
     exists a, get page_hello "/Annots" = Return a /\
       (truthy a = true \/
        exists r xs, get page_hello "/Resources" = Return r /\
                     xobject_mapping r = Some xs /\ image_reachable xs)).
Proof.
  apply (@not_blank_has_evidence page_hello). reflexivity.
Defined.

(** X2.  A page classified blank has no text left after stripping, a false
    /Annots value (so it declares no annotation) and no image entry that
    the loop would reach. *)
Theorem blank_has_no_evidence (page : PageObject) :
  is_page_blank page = Return true ->
  exists t a r,
    extract_text page = Return t /\ strip (or_empty t) = [] /\
    get page "/Annots" = Return a /\ truthy a = false /\
    declares_annotations a = false /\
    get page "/Resources" = Return r /\
    forall xs, xobject_mapping r = Some xs -> ~ image_reachable xs.
Proof.
  unfold is_page_blank.
  destruct (extract_text page) as [t|e]; cbn [rbind]; [|discriminate].
  destruct (str_truthy (strip (or_empty t))) eqn:Hs; [discriminate|].
  apply str_truthy_false in Hs.
  destruct (get page "/Annots") as [a|e]; cbn [rbind]; [|discriminate].
  destruct (truthy a) eqn:Hta; [discriminate|].
  destruct (get page "/Resources") as [r|e]; cbn [rbind]; [|discriminate].
  intros H. exists t, a, r. repeat split; trivial.
  - destruct (declares_annotations a) eqn:Hd; [|reflexivity].
    apply declares_annotations_truthy in Hd. congruence.
  - intros xs Hmap Hreach.
    fold (after_resources r) in H.
    rewrite (after_resources_image r Hmap Hreach) in H. discriminate.
Qed.

Lemma blank_has_no_evidence_witness :
  exists t a r,
    extract_text page_form_only = Return t /\ strip (or_empty t) = [] /\
    get page_form_only "/Annots" = Return a /\ truthy a = false /\
    declares_annotations a = false /\
    get page_form_only "/Resources" = Return r /\
    forall xs, xobject_mapping r = Some xs -> ~ image_reachable xs.
Proof.
  apply (@blank_has_no_evidence page_form_only). reflexivity.
Defined.

(** X4.  When text extraction and the two lookups return and the Resources
    entry is absent or a dictionary, the classifier returns a verdict: it
    does not raise, whatever the XObject mapping holds. *)
Theorem well_formed_page_is_classified (page : PageObject)
    (t : option text) (a r : obj) :
  extract_text page = Return t ->
  get page "/Annots" = Return a ->
  get page "/Resources" = Return r ->
  resources_ok r ->
  classified page.
Proof.
  intros Ht Ha Hr Hok. unfold classified, is_page_blank.
  rewrite Ht. cbn [rbind].
  destruct (str_truthy (strip (or_empty t))); [now exists false|].
  rewrite Ha. cbn [rbind].
  destruct (truthy a); [now exists false|].
  rewrite Hr. cbn [rbind].
  exact (after_resources_returns Hok).
Qed.

Lemma well_formed_page_is_classified_witness :
  classified page_image_after_number.
Proof.
  apply (@well_formed_page_is_classified page_image_after_number (Some [])
           PyNone
           (Direct (DictionaryObject
              [("/XObject",
                Direct (DictionaryObject
                  [("/X0", Direct (NumberObject 3));
                   ("/Im0", IndirectObject (Some image_xobject))]))]))).
  - reflexivity.
  - reflexivity.
  - reflexivity.
  - right. eexists. reflexivity.
Defined.

(** X5.  For a page without text and with a false /Annots value whose
    XObject entries can all be inspected, the verdict is exactly the
    absence of an image entry, wherever in the mapping the entry stands. *)
Theorem inspectable_entries_decide (page : PageObject) (t : option text)
    (a r : obj) (xs : list (key * obj)) :
  extract_text page = Return t -> strip (or_empty t) = [] ->
  get page "/Annots" = Return a -> truthy a = false ->
  get page "/Resources" = Return r ->
  xobject_mapping r = Some xs ->
  forallb (fun kv => inspectable (snd kv)) xs = true ->
  is_page_blank page
  = Return (negb (existsb (fun kv => is_image (snd kv)) xs)).
Proof.
  intros Ht Hs Ha Hta Hr Hmap Hall.
  rewrite (classifier_after_resources page Ht Hs Ha Hta Hr).
  destruct (existsb (fun kv => is_image (snd kv)) xs) eqn:Hex; cbn [negb].
  - apply after_resources_image with xs; [exact Hmap|].
    now apply inspectable_image_reachable.
  - apply after_resources_no_image.
    + now apply mapping_resources_ok with xs.
    + unfold has_image_xobject. now rewrite Hmap.
Qed.

Lemma inspectable_entries_decide_witness :
  is_page_blank
    (page_with_xobjects []
       [("/Fm0", IndirectObject (Some form_xobject));
        ("/Im0", IndirectObject (Some image_xobject))])
  = Return false.
Proof.
  apply (@inspectable_entries_decide
           (page_with_xobjects []
              [("/Fm0", IndirectObject (Some form_xobject));
               ("/Im0", IndirectObject (Some image_xobject))])
           (Some []) PyNone
           (Direct (DictionaryObject
              [("/XObject",
                Direct (DictionaryObject
                  [("/Fm0", IndirectObject (Some form_xobject));
                   ("/Im0", IndirectObject (Some image_xobject))]))]))
           [(Name "/Fm0", IndirectObject (Some form_xobject));
            (Name "/Im0", IndirectObject (Some image_xobject))]);
    reflexivity.
Defined.

Lemma classifier_raises_only_outside_try_witness :
  raises_outside_try page_get_raises (OtherError "RuntimeError").
Proof.
  apply (@classifier_raises_only_outside_try page_get_raises
           (OtherError "RuntimeError")).
  reflexivity.
Defined.

(** ** The filter *)

(** X6.  The page loop over two runs of pages one after the other is the
    loop over the first run followed by the loop over the second, started
    from the writer and the count the first one leaves; an error in the
    first run ends both. *)
Theorem page_loop_app (ps1 ps2 : list PageObject) :
  forall (writer : Writer) (removed : Z),
    page_loop (ps1 ++ ps2) writer removed =
    (st <- page_loop ps1 writer removed ;;
     page_loop ps2 (fst st) (snd st))%result.
Proof.
  induction ps1 as [|p ps1 IH]; intros writer removed.
  - reflexivity.
  - cbn [app page_loop].
    destruct (is_page_blank p) as [v|e]; cbn [rbind]; [|reflexivity].
    destruct v; apply IH.
Qed.

(** X7.  When the filter raises, the error is the parser's, or the
    classifier's on the first page without a verdict, or the writer's.  In
    the first two cases the writer is never called; in every case the
    parser is called exactly once. *)
Theorem filter_error_origin
    (PdfReader : bytes -> result Reader) (write : Writer -> result bytes)
    (b : bytes) (log log' : list event) (e : exn) :
  remove_blank_pages PdfReader write b log = (Raise e, log') ->
  (log' = log ++ [ev_parse b] /\
   (PdfReader b = Raise e \/
    exists reader pre p post,
      PdfReader b = Return reader /\ pages reader = pre ++ p :: post /\
      Forall classified pre /\ is_page_blank p = Raise e)) \/
  (exists reader,
      PdfReader b = Return reader /\ Forall classified (pages reader) /\
      write {| writer_pages := nonblank_pages (pages reader) |} = Raise e /\
      log' = log ++ [ev_parse b; ev_write (nonblank_pages (pages reader))]).
Proof.
  intros Hrun.
  destruct (PdfReader b) as [reader|e0] eqn:Hparse.
  - destruct (page_loop (pages reader) PdfWriter 0) as [[w n]|e0] eqn:Hloop.
    + right. exists reader.
      pose proof (page_loop_returns _ _ _ Hloop) as Hall.
      rewrite (@remove_blank_pages_run PdfReader write b reader log Hparse
                 Hall) in Hrun.
      destruct (write _) as [out|e1] eqn:Hw; cbn [rbind] in Hrun;
        [discriminate|].
      injection Hrun as -> <-. repeat split; trivial.
    + left.
      unfold remove_blank_pages, call_PdfReader, mbind, emit, lift in Hrun.
      rewrite Hparse, Hloop in Hrun. injection Hrun as <- <-.
      split; [reflexivity|]. right.
      destruct (page_loop_raise_origin _ _ _ Hloop)
        as (pre & p & post & Hpages & Hpre & Hp).
      now exists reader, pre, p, post.
  - left.
    rewrite (@remove_blank_pages_parse_error PdfReader write b e0 log Hparse)
      in Hrun.
    injection Hrun as <- <-. split; [reflexivity|now left].
Qed.

Lemma filter_error_origin_witness :
  ([ev_parse [x02]] = [] ++ [ev_parse [x02]] /\
   (sample_PdfReader [x02] = Raise PdfReadError \/
    exists reader pre p post,
      sample_PdfReader [x02] = Return reader /\
      pages reader = pre ++ p :: post /\
      Forall classified pre /\ is_page_blank p = Raise PdfReadError)) \/
  (exists reader,
      sample_PdfReader [x02] = Return reader /\
      Forall classified (pages reader) /\
      sample_write {| writer_pages := nonblank_pages (pages reader) |}
        = Raise PdfReadError /\
      [ev_parse [x02]]
        = [] ++ [ev_parse [x02]; ev_write (nonblank_pages (pages reader))]).
Proof.
  apply (@filter_error_origin sample_PdfReader sample_write [x02] []
           [ev_parse [x02]] PdfReadError).
  reflexivity.
Defined.

(** X8.  Whenever the filter returns, the bytes it returns are what the
    writer made of exactly the pages not classified blank, the parser and
    the writer were each called once, in that order, and the counts satisfy
    0 <= removed <= total with total - removed the number of pages
    written. *)
Theorem filter_result_is_serialized_nonblank_pages
    (PdfReader : bytes -> result Reader) (write : Writer -> result bytes)
    (b out : bytes) (total removed : Z) (log log' : list event) :
  remove_blank_pages PdfReader write b log
    = (Return (out, total, removed), log') ->
  exists reader,
    PdfReader b = Return reader /\
    write {| writer_pages := nonblank_pages (pages reader) |} = Return out /\
    log' = log ++ [ev_parse b; ev_write (nonblank_pages (pages reader))] /\
    total = Z.of_nat (length (pages reader)) /\
    (0 <= removed <= total)%Z /\
    (total - removed)%Z = Z.of_nat (length (nonblank_pages (pages reader))).
Proof.
  intros Hrun.
  destruct (remove_blank_pages_returns _ _ _ _ Hrun)
    as (reader & Hparse & Hall).
  exists reader. split; [exact Hparse|].
  rewrite (@remove_blank_pages_run PdfReader write b reader log Hparse Hall)
    in Hrun.
  destruct (write _) as [o|e] eqn:Hw; cbn [rbind] in Hrun; [|discriminate].
  injection Hrun as -> <- <- <-.
  pose proof (kept_plus_blank (pages reader)) as Hsum.
  repeat split; trivial; lia.
Qed.

Lemma filter_result_is_serialized_nonblank_pages_witness :
  exists reader,
    sample_PdfReader [x00; x01] = Return reader /\
    sample_write {| writer_pages := nonblank_pages (pages reader) |}
      = Return [x01] /\
    [ev_parse [x00; x01]; ev_write [page_hello]]
      = [] ++ [ev_parse [x00; x01];
               ev_write (nonblank_pages (pages reader))] /\
    2%Z = Z.of_nat (length (pages reader)) /\
    (0 <= 1 <= 2)%Z /\
    (2 - 1)%Z = Z.of_nat (length (nonblank_pages (pages reader))).
Proof.
  apply (@filter_result_is_serialized_nonblank_pages sample_PdfReader
           sample_write [x00; x01] [x01] 2%Z 1%Z []
           [ev_parse [x00; x01]; ev_write [page_hello]]).
  reflexivity.
Defined.

(** ** The front end *)

(** X9.  When the parser rejects a non-empty upload (a damaged or a
    protected file), the front end draws the file information, calls the
    parser once, reports the error, and neither calls the writer nor draws
    a summary or a download button. *)
Theorem parse_error_is_reported
    (PdfReader : bytes -> result Reader) (write : Writer -> result bytes)
    (up : UploadedFile) (log : list event) (e : exn) :
  getvalue up <> [] ->
  PdfReader (getvalue up) = Raise e ->
  run_app PdfReader write (Some up) true log =
  (Return tt,
   log ++ [st_file_info (name up) (length (getvalue up));
           ev_parse (getvalue up); st_error e]).
Proof.
  intros Hne Hparse.
  rewrite (@run_app_error PdfReader write up log
             (after_file_info up log ++ [ev_parse (getvalue up)]) e Hne).
  - unfold after_file_info. repeat rewrite <- app_assoc. reflexivity.
  - now apply remove_blank_pages_parse_error.
Qed.

Lemma parse_error_is_reported_witness :
  run_app sample_PdfReader sample_write
    (Some {| name := "bad.pdf"; getvalue := [x02] |}) true [] =
  (Return tt,
   [] ++ [st_file_info "bad.pdf" 1; ev_parse [x02]; st_error PdfReadError]).
Proof.
  apply (@parse_error_is_reported sample_PdfReader sample_write
           {| name := "bad.pdf"; getvalue := [x02] |} [] PdfReadError).
  - discriminate.
  - reflexivity.
Defined.

(** X10.  When every page gets a verdict but the writer fails, the front
    end reports the writer's error after the parser and writer calls and
    draws neither a summary nor a download button. *)
Theorem write_error_is_reported
    (PdfReader : bytes -> result Reader) (write : Writer -> result bytes)
    (up : UploadedFile) (reader : Reader) (log : list event) (e : exn) :
  getvalue up <> [] ->
  PdfReader (getvalue up) = Return reader ->
  Forall classified (pages reader) ->
  write {| writer_pages := nonblank_pages (pages reader) |} = Raise e ->
  run_app PdfReader write (Some up) true log =
  (Return tt,
   log ++ [st_file_info (name up) (length (getvalue up));
           ev_parse (getvalue up);
           ev_write (nonblank_pages (pages reader)); st_error e]).
Proof.
  intros Hne Hparse Hall Hw.
  rewrite (@run_app_error PdfReader write up log
             (after_file_info up log
              ++ [ev_parse (getvalue up);
                  ev_write (nonblank_pages (pages reader))]) e Hne).
  - unfold after_file_info. repeat rewrite <- app_assoc. reflexivity.
  - rewrite (@remove_blank_pages_run PdfReader write (getvalue up) reader
               (after_file_info up log) Hparse Hall).
    now rewrite Hw.
Qed.

Lemma write_error_is_reported_witness :
  run_app sample_PdfReader (fun _ => Raise (OtherError "OSError"))
    (Some {| name := "a.pdf"; getvalue := [x01; x00] |}) true [] =
  (Return tt,
   [] ++ [st_file_info "a.pdf" 2; ev_parse [x01; x00];
          ev_write (nonblank_pages [page_hello; page_empty]);
          st_error (OtherError "OSError")]).
Proof.
  apply (@write_error_is_reported sample_PdfReader
           (fun _ => Raise (OtherError "OSError"))
           {| name := "a.pdf"; getvalue := [x01; x00] |}
           {| pages := [page_hello; page_empty] |} []
           (OtherError "OSError")).
  - discriminate.
  - reflexivity.
  - repeat constructor; eexists; reflexivity.
  - reflexivity.
Defined.

(** The events of a filter run: one parser call, then at most one writer
    call. *)
Lemma remove_blank_pages_events
    (PdfReader : bytes -> result Reader) (write : Writer -> result bytes)
    (b : bytes) (log log' : list event) (r : result (bytes * Z * Z)) :
  remove_blank_pages PdfReader write b log = (r, log') ->
  log' = log ++ [ev_parse b] \/
  exists doc, log' = log ++ [ev_parse b; ev_write doc].
Proof.
  unfold remove_blank_pages, call_PdfReader, call_write, mbind, emit, lift,
    mret.
  destruct (PdfReader b) as [reader|e]; [|intros [= _ <-]; now left].
  destruct (page_loop (pages reader) PdfWriter 0) as [[w n]|e];
    [|intros [= _ <-]; now left].
  destruct (write w) as [out|e]; intros [= _ <-]; right;
    exists (writer_pages w); now rewrite <- app_assoc.
Qed.

(** The four ways a script run can go. *)
Lemma run_app_cases
    (PdfReader : bytes -> result Reader) (write : Writer -> result bytes)
    (uploaded : option UploadedFile) (run_clicked : bool)
    (log : list event) :
  (run_app PdfReader write uploaded run_clicked log
     = (Return tt,
        log ++ match uploaded with
               | Some up => [st_file_info (name up) (length (getvalue up))]
               | None => []
               end) /\
   (uploaded = None \/ run_clicked = false)) \/
  (exists up,
      uploaded = Some up /\ run_clicked = true /\ getvalue up = [] /\
      run_app PdfReader write uploaded run_clicked log
        = (Return tt, after_file_info up log ++ [st_warning_empty_file])) \/
  (exists up e log1,
      uploaded = Some up /\ run_clicked = true /\ getvalue up <> [] /\
      remove_blank_pages PdfReader write (getvalue up)
        (after_file_info up log) = (Raise e, log1) /\
      run_app PdfReader write uploaded run_clicked log
        = (Return tt, log1 ++ [st_error e])) \/
  (exists up cleaned total removed log1,
      uploaded = Some up /\ run_clicked = true /\ getvalue up <> [] /\
      remove_blank_pages PdfReader write (getvalue up)
        (after_file_info up log) = (Return (cleaned, total, removed), log1) /\
      run_app PdfReader write uploaded run_clicked log
        = (Return tt,
           log1 ++ [st_success; st_metric TotalPages total;
                    st_metric Removed removed;
                    st_metric Kept (total - removed)%Z;
                    st_download_button cleaned ("cleaned_" ++ name up)])).
Proof.
  destruct uploaded as [up|].
  2:{ left. split; [|now left]. unfold run_app, mbind, mret.
      now rewrite app_nil_r. }
  destruct run_clicked.
  2:{ left. split; [|now right]. reflexivity. }
  right. destruct (getvalue up) as [|b0 bs] eqn:Hval.
  { left. exists up. repeat split; trivial. now apply run_app_empty. }
  right.
  assert (Hne : getvalue up <> []) by (rewrite Hval; discriminate).
  destruct (remove_blank_pages PdfReader write (getvalue up)
              (after_file_info up log)) as [[[[cleaned total] removed]|e] log1]
    eqn:Hrun.
  - right. exists up, cleaned, total, removed, log1. repeat split; trivial.
    now apply run_app_success.
  - left. exists up, e, log1. repeat split; trivial.
    now apply run_app_error.
Qed.

(** X11.  A script run never raises, and a download button is drawn only
    after a click on a non-empty upload that the parser accepted and whose
    non-blank pages the writer serialized: the data offered are those
    bytes, and the file name is the upload's name after [cleaned_]. *)
Theorem download_is_the_cleaned_document
    (PdfReader : bytes -> result Reader) (write : Writer -> result bytes)
    (uploaded : option UploadedFile) (run_clicked : bool)
    (log : list event) :
  exists added : list event,
    run_app PdfReader write uploaded run_clicked log
      = (Return tt, log ++ added) /\
    forall data file_name,
      In (st_download_button data file_name) added ->
      exists up reader,
        uploaded = Some up /\ run_clicked = true /\ getvalue up <> [] /\
        PdfReader (getvalue up) = Return reader /\
        write {| writer_pages := nonblank_pages (pages reader) |}
          = Return data /\
        file_name = ("cleaned_" ++ name up)%string.
Proof.
  destruct (run_app_cases PdfReader write uploaded run_clicked log)
    as [[Hrun _] | [(up & -> & -> & Hval & Hrun)
       | [(up & e & log1 & -> & -> & Hne & Hfilter & Hrun)
       | (up & cleaned & total & removed & log1 & -> & -> & Hne & Hfilter
          & Hrun)]]].
  - eexists. split; [exact Hrun|].
    intros data file_name Hin. destruct uploaded; cbn in Hin;
      intuition discriminate.
  - exists [st_file_info (name up) (length (getvalue up));
            st_warning_empty_file].
    split.
    + rewrite Hrun. unfold after_file_info. now rewrite <- app_assoc.
    + intros data file_name Hin. cbn in Hin. intuition discriminate.
  - destruct (remove_blank_pages_events _ _ _ _ Hfilter) as [->|[doc ->]].
    + exists [st_file_info (name up) (length (getvalue up));
              ev_parse (getvalue up); st_error e].
      split.
      * rewrite Hrun. unfold after_file_info.
        repeat rewrite <- app_assoc. reflexivity.
      * intros data file_name Hin. cbn in Hin. intuition discriminate.
    + exists [st_file_info (name up) (length (getvalue up));
              ev_parse (getvalue up); ev_write doc; st_error e].
      split.
      * rewrite Hrun. unfold after_file_info.
        repeat rewrite <- app_assoc. reflexivity.
      * intros data file_name Hin. cbn in Hin. intuition discriminate.
  - destruct (remove_blank_pages_returns _ _ _ _ Hfilter)
      as (reader & Hparse & Hall).
    pose proof Hfilter as Hfilter'.
    rewrite (@remove_blank_pages_run PdfReader write (getvalue up) reader
               (after_file_info up log) Hparse Hall) in Hfilter'.
    destruct (write _) as [out|e] eqn:Hw; cbn [rbind] in Hfilter';
      [|discriminate].
    injection Hfilter' as -> _ _ <-.
    exists ([st_file_info (name up) (length (getvalue up));
             ev_parse (getvalue up);
             ev_write (nonblank_pages (pages reader))]
            ++ [st_success; st_metric TotalPages total;
                st_metric Removed removed;
                st_metric Kept (total - removed)%Z;
                st_download_button cleaned ("cleaned_" ++ name up)]).
    split.
    + rewrite Hrun. unfold after_file_info.
      repeat rewrite <- app_assoc. reflexivity.
    + intros data file_name Hin. cbn in Hin.
      destruct Hin as [H|[H|[H|[H|[H|[H|[H|[H|[]]]]]]]]]; try discriminate.
      injection H as <- <-. exists up, reader. repeat split; trivial.
Qed.

(** X12.  The parser is called only after a click on a non-empty upload,
    and then on the upload's bytes; without an upload, without a click, or
    on an empty upload, neither the parser nor the writer is called. *)
Theorem library_is_called_only_on_request
    (PdfReader : bytes -> result Reader) (write : Writer -> result bytes)
    (uploaded : option UploadedFile) (run_clicked : bool)
    (log : list event) :
  exists added : list event,
    run_app PdfReader write uploaded run_clicked log
      = (Return tt, log ++ added) /\
    (forall data, In (ev_parse data) added ->
       exists up, uploaded = Some up /\ run_clicked = true /\
                  data = getvalue up /\ data <> []) /\
    (forall doc, In (ev_write doc) added ->
       exists data, In (ev_parse data) added).
Proof.
  destruct (run_app_cases PdfReader write uploaded run_clicked log)
    as [[Hrun _] | [(up & -> & -> & Hval & Hrun)
       | [(up & e & log1 & -> & -> & Hne & Hfilter & Hrun)
       | (up & cleaned & total & removed & log1 & -> & -> & Hne & Hfilter
          & Hrun)]]].
  - eexists. split; [exact Hrun|].
    split; intros x Hin; destruct uploaded; cbn in Hin;
      intuition discriminate.
  - exists [st_file_info (name up) (length (getvalue up));
            st_warning_empty_file].
    split.
    + rewrite Hrun. unfold after_file_info. now rewrite <- app_assoc.
    + split; intros x Hin; cbn in Hin; intuition discriminate.
  - destruct (remove_blank_pages_events _ _ _ _ Hfilter) as [->|[doc ->]].
    + exists [st_file_info (name up) (length (getvalue up));
              ev_parse (getvalue up); st_error e].
      split.
      * rewrite Hrun. unfold after_file_info.
        repeat rewrite <- app_assoc. reflexivity.
      * split; intros x Hin; cbn in Hin.
        -- destruct Hin as [H|[H|[H|[]]]]; try discriminate.
           injection H as <-. now exists up.
        -- intuition discriminate.
    + exists [st_file_info (name up) (length (getvalue up));
              ev_parse (getvalue up); ev_write doc; st_error e].
      split.
      * rewrite Hrun. unfold after_file_info.
        repeat rewrite <- app_assoc. reflexivity.
      * split; intros x Hin; cbn in Hin.
        -- destruct Hin as [H|[H|[H|[H|[]]]]]; try discriminate.
           injection H as <-. now exists up.
        -- exists (getvalue up). cbn. tauto.
  - destruct (remove_blank_pages_events _ _ _ _ Hfilter) as [->|[doc ->]].
    + exists ([st_file_info (name up) (length (getvalue up));
               ev_parse (getvalue up)]
              ++ [st_success; st_metric TotalPages total;
                  st_metric Removed removed;
                  st_metric Kept (total - removed)%Z;
                  st_download_button cleaned ("cleaned_" ++ name up)]).
      split.
      * rewrite Hrun. unfold after_file_info.
        repeat rewrite <- app_assoc. reflexivity.
      * split; intros x Hin; cbn in Hin.
        -- destruct Hin as [H|[H|[H|[H|[H|[H|[H|[]]]]]]]]; try discriminate.
           injection H as <-. now exists up.
        -- intuition discriminate.
    + exists ([st_file_info (name up) (length (getvalue up));
               ev_parse (getvalue up); ev_write doc]
              ++ [st_success; st_metric TotalPages total;
                  st_metric Removed removed;
                  st_metric Kept (total - removed)%Z;
                  st_download_button cleaned ("cleaned_" ++ name up)]).
      split.
      * rewrite Hrun. unfold after_file_info.
        repeat rewrite <- app_assoc. reflexivity.
      * split; intros x Hin; cbn in Hin.
        -- destruct Hin as [H|[H|[H|[H|[H|[H|[H|[H|[]]]]]]]]];
             try discriminate.
           injection H as <-. now exists up.
        -- exists (getvalue up). cbn. tauto.
Qed.
